(** * Substack export to Markdown converter: a shallow embedding of [main.py]

    The development follows [src/main.py].  Python strings are sequences of
    Unicode code points; the libraries the script calls (BeautifulSoup,
    html2text, [datetime.fromisoformat], the file system, the Unicode
    database behind [\w]) are interfaces, stated as type classes. *)

From Stdlib Require Import NArith String Ascii List Lia Bool DecimalNat.
From stdpp Require Import base option list gmap strings fin_maps.

Set Warnings "-register-all".
Local Open Scope N_scope.

(** ** Python strings *)

(** A [str] is a list of code points. *)
Abbreviation pystr := (list N).

(** An ASCII literal as a [str]. *)
Definition py (s : string) : pystr :=
  map N_of_ascii (list_ascii_of_string s).

Definition nl : pystr := [10].
Definition dq : N := 34.
Definition hyphen : N := 45.
Definition underscore : N := 95.
Definition space : N := 32.

(** [str.isspace] on one code point, which is also [\s] of [re] on [str]
    patterns: the complete list of CPython's [_PyUnicode_IsWhitespace]. *)
Definition is_space (c : N) : bool :=
  ((9 <=? c) && (c <=? 13)) || ((28 <=? c) && (c <=? 32))
  || (c =? 133) || (c =? 160) || (c =? 5760)
  || ((8192 <=? c) && (c <=? 8202))
  || (c =? 8232) || (c =? 8233) || (c =? 8239) || (c =? 8287) || (c =? 12288).

Definition ascii_alnum (c : N) : bool :=
  ((48 <=? c) && (c <=? 57)) || ((65 <=? c) && (c <=? 90))
  || ((97 <=? c) && (c <=? 122)).

(** The Unicode database, consulted by [\w] for code points beyond ASCII
    ([Py_UNICODE_ISALNUM]). *)
Class UnicodeDB := { uni_isalnum : N -> bool }.

Section CharClasses.
Context `{UnicodeDB}.

Definition is_alnum (c : N) : bool :=
  if c <? 128 then ascii_alnum c else uni_isalnum c.

(** [\w]: alphanumeric or the underscore. *)
Definition is_word (c : N) : bool := is_alnum c || (c =? underscore).

(** The class [[^\w\s-]] of line 177. *)
Definition not_word_space_hyphen (c : N) : bool :=
  negb (is_word c || is_space c || (c =? hyphen)).
End CharClasses.

(** The class [[-\s]] of line 178. *)
Definition hyphen_or_space (c : N) : bool := (c =? hyphen) || is_space c.

(** ** String methods *)

Fixpoint drop_while (p : N -> bool) (s : pystr) : pystr :=
  match s with
  | [] => []
  | c :: t => if p c then drop_while p t else s
  end.

Fixpoint take_while (p : N -> bool) (s : pystr) : pystr :=
  match s with
  | [] => []
  | c :: t => if p c then c :: take_while p t else []
  end.

(** [s.strip()] *)
Definition lstrip (s : pystr) : pystr := drop_while is_space s.
Definition rstrip (s : pystr) : pystr := rev (drop_while is_space (rev s)).
Definition strip (s : pystr) : pystr := rstrip (lstrip s).

(** [s.split(sep)[0]] for a one-character separator: the part before the
    first separator, the whole string when there is none. *)
Definition split_first (sep : N) (s : pystr) : pystr :=
  take_while (fun c => negb (c =? sep)) s.

(** [s.replace(old, new)] for a one-character [old]. *)
Definition replace_char (old : N) (new : pystr) (s : pystr) : pystr :=
  flat_map (fun c => if c =? old then new else [c]) s.

(** ** [re.sub] for the pattern shapes the script uses *)

(** [re.sub(C, repl, s)] for a pattern [C] that is one character class. *)
Definition re_sub_class (cls : N -> bool) (repl : pystr) (s : pystr) : pystr :=
  flat_map (fun c => if cls c then repl else [c]) s.

(** [re.sub(C+, repl, s)]: the scan emits [repl] where a run of [C] starts
    and drops the rest of the run. *)
Fixpoint re_sub_runs_from (cls : N -> bool) (repl : pystr) (in_run : bool)
    (s : pystr) : pystr :=
  match s with
  | [] => []
  | c :: t =>
      if cls c
      then (if in_run then [] else repl) ++ re_sub_runs_from cls repl true t
      else c :: re_sub_runs_from cls repl false t
  end.

Definition re_sub_runs (cls : N -> bool) (repl : pystr) (s : pystr) : pystr :=
  re_sub_runs_from cls repl false s.

(** [re.sub(r'<br\s*/?>\s*<br\s*/?>', '\n\n', s)] (line 111).  [match_br]
    matches [<br\s*/?>] at the head of [s] and returns what follows; the
    greedy [\s*] never has to give characters back, since neither [/] nor
    [>] is whitespace. *)
Definition match_br (s : pystr) : option pystr :=
  match s with
  | a :: b :: c :: t =>
      if (a =? 60) && (b =? 98) && (c =? 114) then
        let t1 := drop_while is_space t in
        let t2 := match t1 with
                  | d :: u => if d =? 47 then u else t1
                  | [] => t1
                  end in
        match t2 with
        | d :: u => if d =? 62 then Some u else None
        | [] => None
        end
      else None
  | _ => None
  end.

Definition match_br_br (s : pystr) : option pystr :=
  match match_br s with
  | Some t => match_br (drop_while is_space t)
  | None => None
  end.

(** The left-to-right scan of [re.sub]: after a match the scan resumes
    behind it.  A match is never empty, so a fuel of [length s] suffices. *)
Fixpoint sub_br_br_fuel (fuel : nat) (s : pystr) : pystr :=
  match fuel with
  | O => s
  | S f =>
      match s with
      | [] => []
      | c :: t =>
          match match_br_br s with
          | Some rest => nl ++ nl ++ sub_br_br_fuel f rest
          | None => c :: sub_br_br_fuel f t
          end
      end
  end.

Definition sub_br_br (s : pystr) : pystr := sub_br_br_fuel (length s) s.

(** [re.sub(r'\n\s*\n\s*\n', '\n\n', s)] (line 165).  A match starts at a
    newline and stays inside the whitespace run that starts there; with
    both [\s*] greedy it ends at the last newline of that run, and it
    exists when the run holds at least three newlines. *)
Definition is_newline (c : N) : bool := c =? 10.

Definition count_newlines (s : pystr) : nat :=
  length (List.filter is_newline s).

Definition match_blank_lines (s : pystr) : option pystr :=
  match s with
  | c :: _ =>
      if is_newline c then
        let run := take_while is_space s in
        if (3 <=? count_newlines run)%nat
        then
          let tail := take_while (fun c => negb (is_newline c)) (rev run) in
          Some (rev tail ++ drop_while is_space s)
        else None
      else None
  | [] => None
  end.

Fixpoint sub_blank_lines_fuel (fuel : nat) (s : pystr) : pystr :=
  match fuel with
  | O => s
  | S f =>
      match s with
      | [] => []
      | c :: t =>
          match match_blank_lines s with
          | Some rest => nl ++ nl ++ sub_blank_lines_fuel f rest
          | None => c :: sub_blank_lines_fuel f t
          end
      end
  end.

Definition sub_blank_lines (s : pystr) : pystr :=
  sub_blank_lines_fuel (length s) s.

(** ** Exceptions *)

(** A call returns a value or raises; the message is [str(e)]. *)
Inductive result (A : Type) : Type :=
| Ok (a : A)
| Raise (msg : pystr).
Arguments Ok {A} a.
Arguments Raise {A} msg.

Definition bind_result {A B : Type} (r : result A) (k : A -> result B)
    : result B :=
  match r with
  | Ok a => k a
  | Raise msg => Raise msg
  end.

(** ** The HTML tree of BeautifulSoup *)

Inductive node : Type :=
| Text (s : pystr)
| Comment (s : pystr)
| Elem (name : pystr) (attrs : list (pystr * pystr)) (children : list node).

(** [BeautifulSoup(text, 'html.parser')]: the children of the document. *)
Class HtmlParser := { bs_parse : pystr -> list node }.

(** [tag.get(key, "")] *)
Fixpoint get_attr (key : pystr) (attrs : list (pystr * pystr)) : option pystr :=
  match attrs with
  | [] => None
  | (k, v) :: rest => if bool_decide (k = key) then Some v else get_attr key rest
  end.

(** The values of a [class] attribute: its maximal runs of non-space. *)
Fixpoint words_from (cur : pystr) (s : pystr) : list pystr :=
  match s with
  | [] => match cur with [] => [] | _ => [rev cur] end
  | c :: t =>
      if is_space c
      then match cur with
           | [] => words_from [] t
           | _ => rev cur :: words_from [] t
           end
      else words_from (c :: cur) t
  end.

Definition words (s : pystr) : list pystr := words_from [] s.

(** The filter of [find_all(['div'], class_=markers)] on one tag: a [div]
    one of whose class values is one of the markers. *)
Definition div_with_class (markers : list pystr) (name : pystr)
    (attrs : list (pystr * pystr)) : bool :=
  bool_decide (name = py "div")
  && match get_attr (py "class") attrs with
     | Some v =>
         existsb (fun tok => existsb (fun m => bool_decide (tok = m)) markers)
                 (words v)
     | None => false
     end.

(** [for elem in soup.find_all(['div'], class_=markers): elem.decompose()]:
    every matching [div] leaves the tree with its subtree. *)
Fixpoint decompose_node (markers : list pystr) (n : node) : list node :=
  match n with
  | Elem name attrs kids =>
      if div_with_class markers name attrs then []
      else [Elem name attrs (flat_map (decompose_node markers) kids)]
  | _ => [n]
  end.

Definition decompose_all (markers : list pystr) (doc : list node) : list node :=
  flat_map (decompose_node markers) doc.

(** [tag.find(name)]: the first descendant tag of that name, in document
    order. *)
Fixpoint find_in_node (tag : pystr) (n : node) : option node :=
  match n with
  | Elem name attrs kids =>
      if bool_decide (name = tag) then Some n
      else
        (fix find_in_list (l : list node) : option node :=
           match l with
           | [] => None
           | k :: rest =>
               match find_in_node tag k with
               | Some r => Some r
               | None => find_in_list rest
               end
           end) kids
  | _ => None
  end.

Fixpoint find_tag (tag : pystr) (l : list node) : option node :=
  match l with
  | [] => None
  | k :: rest =>
      match find_in_node tag k with
      | Some r => Some r
      | None => find_tag tag rest
      end
  end.

(** [tag.get_text()]: the text strings below the tag, concatenated;
    comments are not text. *)
Fixpoint get_text (n : node) : pystr :=
  match n with
  | Text s => s
  | Comment _ => []
  | Elem _ _ kids => flat_map get_text kids
  end.

Definition node_attrs (n : node) : list (pystr * pystr) :=
  match n with
  | Elem _ attrs _ => attrs
  | _ => []
  end.

Definition node_children (n : node) : list node :=
  match n with
  | Elem _ _ kids => kids
  | _ => []
  end.

Definition noise_subscription : list pystr :=
  [py "subscription-widget"; py "subscription-widget-wrap-editor"].
Definition noise_poll : list pystr := [py "poll-embed"].
Definition noise_share : list pystr := [py "captioned-button-wrap"].
Definition image_container : list pystr := [py "captioned-image-container"].

(** Lines 102-104: the markup that replaces an image container. *)
Definition new_content (img : node) (caption : option node) : pystr :=
  let caption_text :=
    match caption with
    | Some c => strip (get_text c)
    | None => []
    end in
  py "<img src=" ++ [dq] ++ default [] (get_attr (py "src") (node_attrs img))
    ++ [dq] ++ py " alt=" ++ [dq]
    ++ default [] (get_attr (py "alt") (node_attrs img)) ++ [dq] ++ py ">"
    ++ match caption_text with
       | [] => []
       | _ => py "<br><em>" ++ caption_text ++ py "</em>"
       end.

(** Lines 81-90: the three loops that remove subscription widgets, poll
    embeds and share buttons. *)
Definition remove_noise (doc : list node) : list node :=
  decompose_all noise_share
    (decompose_all noise_poll
       (decompose_all noise_subscription doc)).

Section Sanitizer.
Context `{HtmlParser}.

(** Lines 93-106.  [find_all] lists the containers in document order
    before the loop runs; a container with an image is replaced whole, so
    what the loop later does to containers inside it is not seen in the
    document.  A container without an image is skipped by [if img:].
    The replacement is the parsed [new_content]; the document object that
    wraps it prints as its children. *)
Fixpoint simplify_container (n : node) : list node :=
  match n with
  | Elem name attrs kids =>
      if div_with_class image_container name attrs then
        match find_tag (py "img") kids with
        | Some img => bs_parse (new_content img (find_tag (py "figcaption") kids))
        | None => [Elem name attrs (flat_map simplify_container kids)]
        end
      else [Elem name attrs (flat_map simplify_container kids)]
  | _ => [n]
  end.

Definition simplify_containers (doc : list node) : list node :=
  flat_map simplify_container doc.

(** Lines 78-106: the tree after the four loops. *)
Definition clean_tree (doc : list node) : list node :=
  simplify_containers (remove_noise doc).
End Sanitizer.

(** ** [str(soup)] *)

(** The minimal formatter: [&], [<] and [>] become entities. *)
Definition escape_xml (s : pystr) : pystr :=
  flat_map (fun c =>
    if c =? 38 then py "&amp;"
    else if c =? 60 then py "&lt;"
    else if c =? 62 then py "&gt;"
    else [c]) s.

Definition contains (c : N) (s : pystr) : bool := existsb (N.eqb c) s.

(** [quoted_attribute_value]: double quotes, unless the value holds one. *)
Definition quoted_attribute_value (v : pystr) : pystr :=
  if contains dq v then
    if contains 39 v
    then [dq] ++ replace_char dq (py "&quot;") v ++ [dq]
    else [39] ++ v ++ [39]
  else [dq] ++ v ++ [dq].

Definition void_elements : list pystr :=
  map py ["area"; "base"; "br"; "col"; "embed"; "hr"; "img"; "input";
          "keygen"; "link"; "menuitem"; "meta"; "param"; "source"; "track";
          "wbr"; "basefont"; "bgsound"; "command"; "frame"; "image";
          "isindex"; "nextid"; "spacer"]%string.

Definition is_void (name : pystr) : bool :=
  existsb (fun v => bool_decide (name = v)) void_elements.

(** [a < b] on strings: by code points, the shorter first. *)
Fixpoint str_ltb (a b : pystr) : bool :=
  match a, b with
  | _, [] => false
  | [], _ :: _ => true
  | x :: a', y :: b' =>
      if x <? y then true else if y <? x then false else str_ltb a' b'
  end.

Fixpoint insert_attr (kv : pystr * pystr) (attrs : list (pystr * pystr))
    : list (pystr * pystr) :=
  match attrs with
  | [] => [kv]
  | kv' :: rest =>
      if str_ltb (fst kv') (fst kv) then kv' :: insert_attr kv rest
      else kv :: kv' :: rest
  end.

(** [Formatter.attributes]: the attributes of a tag, whose names are
    distinct, sorted by name. *)
Definition sorted_attrs (attrs : list (pystr * pystr))
    : list (pystr * pystr) :=
  foldr insert_attr [] attrs.

(** The attributes as [Tag.decode] prints them: in the order of their
    names, not in the order of the source. *)
Definition str_attrs (attrs : list (pystr * pystr)) : pystr :=
  flat_map (fun kv =>
    [space] ++ fst kv ++ py "=" ++ quoted_attribute_value (escape_xml (snd kv)))
    (sorted_attrs attrs).

(** The text directly inside [script] and [style] is printed as it is. *)
Definition cdata_containing (name : pystr) : bool :=
  bool_decide (name = py "script") || bool_decide (name = py "style").

Fixpoint str_node (raw : bool) (n : node) : pystr :=
  match n with
  | Text s => if raw then s else escape_xml s
  | Comment s => py "<!--" ++ s ++ py "-->"
  | Elem name attrs kids =>
      match kids with
      | [] =>
          if is_void name
          then py "<" ++ name ++ str_attrs attrs ++ py "/>"
          else py "<" ++ name ++ str_attrs attrs ++ py "></" ++ name ++ py ">"
      | _ =>
          py "<" ++ name ++ str_attrs attrs ++ py ">"
            ++ flat_map (str_node (cdata_containing name)) kids
            ++ py "</" ++ name ++ py ">"
      end
  end.

Definition str_soup (doc : list node) : pystr :=
  flat_map (str_node false) doc.

Section CleanHtml.
Context `{HtmlParser}.

(** [_clean_html_content] (lines 76-113). *)
Definition _clean_html_content (html_content : pystr) : pystr :=
  let soup := clean_tree (bs_parse html_content) in
  let cleaned := str_soup soup in
  let cleaned := re_sub_runs is_space [space] cleaned in
  let cleaned := sub_br_br cleaned in
  cleaned.
End CleanHtml.

(** ** A reference parser

    An executable model of [BeautifulSoup(text, 'html.parser')] on the
    fragment of HTML the examples below use: character data, comments,
    start tags with attributes (quoted, bare or without a value), end tags,
    self-closing tags and void elements.  Character references, [<!...>]
    declarations and the raw-text content of [script] and [style] are not
    interpreted: the model keeps them as they are written. *)

Definition ascii_letter (c : N) : bool :=
  ((65 <=? c) && (c <=? 90)) || ((97 <=? c) && (c <=? 122)).

(** [s.lower()] on ASCII letters. *)
Definition lower (s : pystr) : pystr :=
  map (fun c => if (65 <=? c) && (c <=? 90) then c + 32 else c) s.

Inductive token : Type :=
| TText (s : pystr)
| TComment (s : pystr)
| TStart (name : pystr) (attrs : list (pystr * pystr)) (self_closing : bool)
| TEnd (name : pystr).

(** The characters of a tag name after its first letter. *)
Definition tag_name_char (c : N) : bool :=
  negb ((c =? 9) || (c =? 10) || (c =? 13) || (c =? 12) || (c =? 32)
        || (c =? 47) || (c =? 62) || (c =? 0)).

(** The characters of an attribute name after its first one. *)
Definition attr_name_char (c : N) : bool :=
  negb (is_space c || (c =? 47) || (c =? 61) || (c =? 62)).

(** [s] up to the first [stop], and what follows that [stop]. *)
Fixpoint split_at_char (stop : N) (s : pystr) : option (pystr * pystr) :=
  match s with
  | [] => None
  | c :: t =>
      if c =? stop then Some ([], t)
      else match split_at_char stop t with
           | Some (a, b) => Some (c :: a, b)
           | None => None
           end
  end.

(** The value after [=]: quoted, or bare up to a space or [>]. *)
Definition attr_value (s : pystr) : option (pystr * pystr) :=
  match s with
  | 34 :: t => split_at_char 34 t
  | 39 :: t => split_at_char 39 t
  | _ =>
      let stop c := negb (is_space c || (c =? 62)) in
      Some (take_while stop s, drop_while stop s)
  end.

(** A later attribute of the same name replaces the value of the first. *)
Fixpoint set_attr (k v : pystr) (attrs : list (pystr * pystr))
    : list (pystr * pystr) :=
  match attrs with
  | [] => [(k, v)]
  | (k', v') :: rest =>
      if bool_decide (k' = k) then (k', v) :: rest
      else (k', v') :: set_attr k v rest
  end.

(** The attributes whose value is a list of words; the list prints joined
    by single spaces. *)
Definition cdata_list_attribute (tag attr : pystr) : bool :=
  let named a := bool_decide (attr = py a) in
  let of_tag t := bool_decide (tag = py t) in
  named "class" || named "accesskey" || named "dropzone"
  || ((of_tag "a" || of_tag "link") && (named "rel" || named "rev"))
  || ((of_tag "td" || of_tag "th") && named "headers")
  || (of_tag "form" && named "accept-charset")
  || (of_tag "object" && named "archive")
  || (of_tag "area" && named "rel")
  || (of_tag "icon" && named "sizes")
  || (of_tag "iframe" && named "sandbox")
  || (of_tag "output" && named "for").

Fixpoint join (sep : pystr) (l : list pystr) : pystr :=
  match l with
  | [] => []
  | [w] => w
  | w :: rest => w ++ sep ++ join sep rest
  end.

Definition attr_stored (tag attr v : pystr) : pystr :=
  if cdata_list_attribute tag attr then join [space] (words v) else v.

(** The attributes of a start tag, from behind the tag name to the closing
    [>] or [/>]; [None] when the tag is not closed. *)
Fixpoint parse_attrs (fuel : nat) (tag : pystr) (s : pystr)
    (acc : list (pystr * pystr))
    : option (list (pystr * pystr) * bool * pystr) :=
  match fuel with
  | O => None
  | S f =>
      match s with
      | [] => None
      | 62 :: rest => Some (acc, false, rest)
      | 47 :: 62 :: rest => Some (acc, true, rest)
      | c :: t =>
          if is_space c || (c =? 47) then parse_attrs f tag t acc
          else
            let name := lower (c :: take_while attr_name_char t) in
            let after_name := drop_while is_space (drop_while attr_name_char t) in
            match after_name with
            | 61 :: _ =>
                let after_eq :=
                  drop_while is_space (drop_while (N.eqb 61) after_name) in
                match attr_value after_eq with
                | Some (v, rest) =>
                    parse_attrs f tag rest
                      (set_attr name (attr_stored tag name v) acc)
                | None => None
                end
            | _ =>
                parse_attrs f tag (drop_while attr_name_char t)
                  (set_attr name [] acc)
            end
      end
  end.

(** [s] up to the first ["-->"], and what follows it. *)
Fixpoint split_at_comment_end (s : pystr) : option (pystr * pystr) :=
  match s with
  | 45 :: 45 :: 62 :: rest => Some ([], rest)
  | c :: t =>
      match split_at_comment_end t with
      | Some (a, b) => Some (c :: a, b)
      | None => None
      end
  | [] => None
  end.

(** One piece of markup at a [<]; [None] when the [<] is character data. *)
Definition parse_markup (s : pystr) : option (token * pystr) :=
  match s with
  | 60 :: 33 :: 45 :: 45 :: t =>
      match split_at_comment_end t with
      | Some (body, rest) => Some (TComment body, rest)
      | None => None
      end
  | 60 :: 47 :: c :: t =>
      if ascii_letter c then
        match split_at_char 62 (drop_while tag_name_char t) with
        | Some (_, rest) => Some (TEnd (lower (c :: take_while tag_name_char t)), rest)
        | None => None
        end
      else None
  | 60 :: c :: t =>
      if ascii_letter c then
        let name := lower (c :: take_while tag_name_char t) in
        let rest := drop_while tag_name_char t in
        match parse_attrs (S (length rest)) name rest [] with
        | Some (attrs, sc, rest') => Some (TStart name attrs sc, rest')
        | None => None
        end
      else None
  | _ => None
  end.

Definition flush_text (pending : pystr) : list token :=
  match pending with
  | [] => []
  | _ => [TText (rev pending)]
  end.

(** The events of the parser; [pending] is the character data read since
    the last piece of markup, in reverse. *)
Fixpoint tokenize (fuel : nat) (s : pystr) (pending : pystr) : list token :=
  match fuel with
  | O => flush_text pending
  | S f =>
      match s with
      | [] => flush_text pending
      | c :: t =>
          match parse_markup s with
          | Some (tok, rest) => flush_text pending ++ tok :: tokenize f rest []
          | None => tokenize f t (c :: pending)
          end
      end
  end.

(** An open tag with the children it has so far, the last one first. *)
Record frame : Type := Frame {
  f_name : pystr;
  f_attrs : list (pystr * pystr);
  f_kids : list node
}.

Definition add_child (n : node) (fr : frame) : frame :=
  Frame (f_name fr) (f_attrs fr) (n :: f_kids fr).

Definition frame_node (fr : frame) : node :=
  Elem (f_name fr) (f_attrs fr) (rev (f_kids fr)).

(** Close the innermost [n] open tags. *)
Fixpoint pop_frames (n : nat) (root : frame) (stack : list frame)
    : frame * list frame :=
  match n, stack with
  | S k, fr :: parent :: rest =>
      pop_frames k root (add_child (frame_node fr) parent :: rest)
  | S k, [fr] => pop_frames k (add_child (frame_node fr) root) []
  | _, _ => (root, stack)
  end.

(** How many open tags an end tag closes: up to the innermost open tag of
    its name, none when no such tag is open. *)
Fixpoint frames_to_pop (name : pystr) (stack : list frame) : option nat :=
  match stack with
  | [] => None
  | fr :: rest =>
      if bool_decide (f_name fr = name) then Some 1%nat
      else option_map S (frames_to_pop name rest)
  end.

Definition ascii_space (c : N) : bool :=
  (c =? 32) || (c =? 10) || (c =? 9) || (c =? 12) || (c =? 13).

Definition preserves_whitespace (stack : list frame) : bool :=
  existsb (fun fr => bool_decide (f_name fr = py "pre")
                     || bool_decide (f_name fr = py "textarea")) stack.

(** [endData]: a string of ASCII whitespace alone becomes one newline or
    one space, outside [pre] and [textarea]. *)
Definition end_data (stack : list frame) (s : pystr) : pystr :=
  if forallb ascii_space s && negb (preserves_whitespace stack)
  then (if contains 10 s then nl else [space])
  else s.

Definition push_node (n : node) (root : frame) (stack : list frame)
    : frame * list frame :=
  match stack with
  | fr :: rest => (root, add_child n fr :: rest)
  | [] => (add_child n root, [])
  end.

Fixpoint build (toks : list token) (root : frame) (stack : list frame)
    : list node :=
  match toks with
  | [] => rev (f_kids (fst (pop_frames (length stack) root stack)))
  | TText s :: rest =>
      let '(root', stack') := push_node (Text (end_data stack s)) root stack in
      build rest root' stack'
  | TComment s :: rest =>
      let '(root', stack') := push_node (Comment s) root stack in
      build rest root' stack'
  | TStart name attrs sc :: rest =>
      if sc || is_void name then
        let '(root', stack') := push_node (Elem name attrs []) root stack in
        build rest root' stack'
      else build rest root (Frame name attrs [] :: stack)
  | TEnd name :: rest =>
      match frames_to_pop name stack with
      | Some n =>
          let '(root', stack') := pop_frames n root stack in
          build rest root' stack'
      | None => build rest root stack
      end
  end.

Definition html_parser_feed (s : pystr) : list node :=
  build (tokenize (length s) s []) (Frame (py "[document]") [] []) [].

Definition reference_parser : HtmlParser := {| bs_parse := html_parser_feed |}.

(** ** Dates *)

Record datetime : Type := {
  year : N; month : N; day : N;
  hour : N; minute : N; second : N; microsecond : N;
  utcoffset : option (bool * N)
}.

(** [datetime.fromisoformat]; it raises [ValueError] on a string it does
    not accept. *)
Class IsoParser := { fromisoformat : pystr -> result datetime }.

Fixpoint uint_digits (d : Decimal.uint) : pystr :=
  match d with
  | Decimal.Nil => []
  | Decimal.D0 d => 48 :: uint_digits d
  | Decimal.D1 d => 49 :: uint_digits d
  | Decimal.D2 d => 50 :: uint_digits d
  | Decimal.D3 d => 51 :: uint_digits d
  | Decimal.D4 d => 52 :: uint_digits d
  | Decimal.D5 d => 53 :: uint_digits d
  | Decimal.D6 d => 54 :: uint_digits d
  | Decimal.D7 d => 55 :: uint_digits d
  | Decimal.D8 d => 56 :: uint_digits d
  | Decimal.D9 d => 57 :: uint_digits d
  end.

(** [str(n)] *)
Definition str_nat (n : nat) : pystr := uint_digits (Nat.to_uint n).

Definition digit (n : N) : N := 48 + n mod 10.
Definition pad2 (n : N) : pystr := [digit (n / 10); digit n].

(** [dt.strftime('%Y-%m-%d')], as CPython 3.11 gives it with the C
    library of Linux: [%Y] is the year as a decimal number without leading
    zeros ([999-01-01] for the first day of the year 999), [%m] and [%d]
    have two digits. *)
Definition strftime_ymd (dt : datetime) : pystr :=
  str_nat (N.to_nat (year dt)) ++ [hyphen] ++ pad2 (month dt) ++ [hyphen]
    ++ pad2 (day dt).

(** [try: body  except: return fallback] *)
Definition try_except {A : Type} (body : result A) (fallback : A) : A :=
  match body with
  | Ok a => a
  | Raise _ => fallback
  end.

Section FormatDate.
Context `{IsoParser}.

(** [_format_date] (lines 115-121). *)
Definition _format_date (date_str : pystr) : pystr :=
  try_except
    (bind_result (fromisoformat (replace_char 90 (py "+00:00") date_str))
       (fun dt => Ok (strftime_ymd dt)))
    date_str.
End FormatDate.

(** ** Metadata *)

(** The dictionary of one post: each key may be missing. *)
Record post_meta : Type := {
  title : option pystr;
  subtitle : option pystr;
  date : option pystr;
  type : option pystr;
  published : option bool
}.

(** The empty dictionary. *)
Definition no_meta : post_meta :=
  {| title := None; subtitle := None; date := None; type := None;
     published := None |}.

(** [str(b)] *)
Definition str_bool (b : bool) : pystr := if b then py "True" else py "False".

Section Frontmatter.
Context `{IsoParser}.

(** [_create_frontmatter] (lines 123-138). *)
Definition _create_frontmatter (post_id : pystr) (metadata : post_meta)
    : pystr :=
  let frontmatter := py "---" ++ nl in
  let frontmatter :=
    frontmatter ++ py "title: " ++ [dq]
      ++ default (py "Untitled") (title metadata) ++ [dq] ++ nl in
  let subtitle := strip (default [] (subtitle metadata)) in
  let frontmatter :=
    match subtitle with
    | [] => frontmatter
    | _ => frontmatter ++ py "subtitle: " ++ [dq] ++ subtitle ++ [dq] ++ nl
    end in
  let frontmatter :=
    frontmatter ++ py "date: "
      ++ _format_date (default [] (date metadata)) ++ nl in
  let frontmatter :=
    frontmatter ++ py "type: " ++ default (py "post") (type metadata) ++ nl in
  let frontmatter :=
    frontmatter ++ py "published: "
      ++ lower (str_bool (default false (published metadata))) ++ nl in
  let frontmatter := frontmatter ++ py "substack_id: " ++ post_id ++ nl in
  let frontmatter := frontmatter ++ py "---" ++ nl ++ nl in
  frontmatter.
End Frontmatter.

(** ** The metadata loader *)

(** A row as [csv.DictReader] yields it for a record that has a field
    for every column of the header: column name to field.  The rows of
    one file all have the columns of its header, so that a column is
    missing in each of them or in none.  (A record with fewer fields than
    the header, whose missing fields [DictReader] sets to [None], is not
    among these rows.) *)
Abbreviation row := (gmap string pystr).

(** [row[key]]; a missing key raises [KeyError], whose text is the quoted
    key. *)
Definition getitem (r : row) (key : string) : result pystr :=
  match r !! key with
  | Some v => Ok v
  | None => Raise ([39] ++ py key ++ [39])
  end.

(** Lines 59-66: one turn of the loop. *)
Definition load_row (metadata : gmap pystr post_meta) (r : row)
    : result (gmap pystr post_meta) :=
  bind_result (getitem r "post_id") (fun raw_id =>
  let post_id := split_first 46 raw_id in
  bind_result (getitem r "title") (fun r_title =>
  bind_result (getitem r "subtitle") (fun r_subtitle =>
  bind_result (getitem r "post_date") (fun r_date =>
  bind_result (getitem r "type") (fun r_type =>
  bind_result (getitem r "is_published") (fun r_published =>
  Ok (<[post_id :=
         {| title := Some r_title;
            subtitle := Some r_subtitle;
            date := Some r_date;
            type := Some r_type;
            published := Some (bool_decide (r_published = py "true")) |}]>
      metadata))))))).

(** The loop inside [try]: the first row that raises ends it, and what was
    loaded before stays. *)
Fixpoint load_rows (rows : list row) (metadata : gmap pystr post_meta)
    : gmap pystr post_meta * option pystr :=
  match rows with
  | [] => (metadata, None)
  | r :: rest =>
      match load_row metadata r with
      | Ok metadata' => load_rows rest metadata'
      | Raise msg => (metadata, Some msg)
      end
  end.

(** ** The world of a run *)

(** The files of the export and of the output directory, as the run finds
    them. *)
Class FileSystem := {
  (** reading the text of a file of the posts directory *)
  read_text : pystr -> result pystr;
  (** the error of opening a file of the output directory for writing *)
  write_error : pystr -> option pystr;
  posts_csv_path : pystr;
  posts_dir_path : pystr;
  output_dir_abspath : pystr
}.

(** [html2text.HTML2Text.handle] with the configuration of lines 36-42. *)
Class Html2Text := { h2t_handle : pystr -> result pystr }.

(** What a run changes: the files of the output directory and the lines
    printed, one entry for each call of [print]. *)
Record world : Type := World {
  outputs : gmap pystr pystr;
  console : list pystr
}.

(** Statements that may raise and change the world; the changes made
    before an exception stay. *)
Definition M (A : Type) : Type := world -> result A * world.

Definition ret {A : Type} (a : A) : M A := fun w => (Ok a, w).

Definition bind {A B : Type} (m : M A) (k : A -> M B) : M B :=
  fun w =>
    match m w with
    | (Ok a, w') => k a w'
    | (Raise msg, w') => (Raise msg, w')
    end.

Notation "x <- m ;; k" := (bind m (fun x => k))
  (at level 100, m at next level, right associativity).
Notation "m ;;; k" := (bind m (fun _ => k))
  (at level 100, right associativity).

Definition lift {A : Type} (r : result A) : M A := fun w => (r, w).

Definition print (line : pystr) : M unit :=
  fun w => (Ok tt, World (outputs w) (console w ++ [line])).

Section Loader.
Context `{FileSystem}.

(** [_load_posts_metadata] (lines 47-70); [csv] is [None] when
    [posts.csv] does not exist, else the rows that [csv.DictReader] yields
    for it. *)
Definition _load_posts_metadata (csv : option (list row))
    : M (gmap pystr post_meta) :=
  match csv with
  | None =>
      print (py "Warning: " ++ posts_csv_path ++ py " not found") ;;;
      ret ∅
  | Some rows =>
      match load_rows rows ∅ with
      | (metadata, None) => ret metadata
      | (metadata, Some msg) =>
          print (py "Error reading posts.csv: " ++ msg) ;;;
          ret metadata
      end
  end.
End Loader.

(** ** The file converter *)

(** [_extract_post_id] (lines 72-74). *)
Definition _extract_post_id (filename : pystr) : pystr :=
  split_first 46 filename.

(** [Path.stem]: the name without its last suffix. *)
Definition stem (name : pystr) : pystr :=
  if contains 46 name then
    let suffix := take_while (fun c => negb (c =? 46)) (rev name) in
    let i := Nat.sub (Nat.sub (length name) (length suffix)) 1 in
    if Nat.ltb 0 i && Nat.ltb i (Nat.sub (length name) 1)
    then take i name else name
  else name.

Section Converter.
Context `{UnicodeDB} `{HtmlParser} `{Html2Text} `{IsoParser} `{FileSystem}.

(** Lines 177-178. *)
Definition safe_title_of (title : pystr) : pystr :=
  let safe_title := strip (re_sub_class not_word_space_hyphen [] title) in
  let safe_title := re_sub_runs hyphen_or_space [hyphen] safe_title in
  safe_title.

(** Lines 184-185. *)
Definition write_text (name content : pystr) : M unit :=
  fun w =>
    match write_error name with
    | Some msg => (Raise msg, w)
    | None => (Ok tt, World (<[name := content]> (outputs w)) (console w))
    end.

(** The body of [try] in [convert_file] (lines 143-188). *)
Definition convert_file_try (posts_metadata : gmap pystr post_meta)
    (name : pystr) : M bool :=
  html_content <- lift (read_text name) ;;
  let post_id := _extract_post_id name in
  let metadata := default no_meta (posts_metadata !! post_id) in
  if negb (default true (published metadata)) then
    print (py "Skipping unpublished post: " ++ name) ;;;
    ret false
  else
    let cleaned_html := _clean_html_content html_content in
    markdown_content <- lift (h2t_handle cleaned_html) ;;
    let markdown_content := sub_blank_lines markdown_content in
    let markdown_content := strip markdown_content in
    let frontmatter := _create_frontmatter post_id metadata in
    let full_content := frontmatter ++ markdown_content in
    let title := default (stem name) (title metadata) in
    let safe_title := safe_title_of title in
    let output_filename := post_id ++ py "_" ++ safe_title ++ py ".md" in
    write_text output_filename full_content ;;;
    print (py "Converted: " ++ name ++ py " -> " ++ output_filename) ;;;
    ret true.

(** [convert_file] (lines 140-192). *)
Definition convert_file (posts_metadata : gmap pystr post_meta)
    (name : pystr) (w : world) : bool * world :=
  match convert_file_try posts_metadata name w with
  | (Ok b, w') => (b, w')
  | (Raise e, w') =>
      (false,
       World (outputs w')
             (console w' ++ [py "Error converting " ++ name ++ py ": " ++ e]))
  end.
End Converter.

(** ** The batch driver *)

Section Batch.
Context `{UnicodeDB} `{HtmlParser} `{Html2Text} `{IsoParser} `{FileSystem}.

(** Lines 210-213. *)
Fixpoint convert_loop (posts_metadata : gmap pystr post_meta)
    (html_files : list pystr) (successful : nat) (w : world)
    : nat * world :=
  match html_files with
  | [] => (successful, w)
  | html_file :: rest =>
      let '(converted, w') := convert_file posts_metadata html_file w in
      convert_loop posts_metadata rest
        (if converted then S successful else successful) w'
  end.

Definition summary_line (successful total : nat) : pystr :=
  nl ++ py "Conversion complete: " ++ str_nat successful ++ py "/"
    ++ str_nat total ++ py " files converted successfully".

Definition print_line (line : pystr) (w : world) : world :=
  World (outputs w) (console w ++ [line]).

(** [convert_all] (lines 194-216); [listing] is [None] when the posts
    directory does not exist, else the result of [glob("*.html")]. *)
Definition convert_all (posts_metadata : gmap pystr post_meta)
    (listing : option (list pystr)) (w : world) : world :=
  match listing with
  | None => print_line (py "Posts directory not found: " ++ posts_dir_path) w
  | Some [] => print_line (py "No HTML files found in posts directory") w
  | Some html_files =>
      let w :=
        print_line (py "Found " ++ str_nat (length html_files)
                      ++ py " HTML files to convert") w in
      let '(successful, w) := convert_loop posts_metadata html_files 0 w in
      let w := print_line (summary_line successful (length html_files)) w in
      print_line (py "Markdown files saved to: " ++ output_dir_abspath) w
  end.
End Batch.

(** ** Reference instances of the interfaces *)

(** The Unicode database on Latin-1; beyond it the table says no. *)
Definition latin1_alnum (c : N) : bool :=
  (c =? 170) || (c =? 178) || (c =? 179) || (c =? 181) || (c =? 185)
  || (c =? 186) || ((188 <=? c) && (c <=? 190))
  || ((192 <=? c) && (c <=? 214)) || ((216 <=? c) && (c <=? 246))
  || ((248 <=? c) && (c <=? 255)).

Definition latin1_db : UnicodeDB := {| uni_isalnum := latin1_alnum |}.

Definition digit_val (c : N) : option N :=
  if (48 <=? c) && (c <=? 57) then Some (c - 48) else None.

Definition num2 (a b : N) : option N :=
  match digit_val a, digit_val b with
  | Some x, Some y => Some (10 * x + y)
  | _, _ => None
  end.

Definition is_leap (y : N) : bool :=
  ((y mod 4 =? 0) && negb (y mod 100 =? 0)) || (y mod 400 =? 0).

Definition days_in_month (y m : N) : N :=
  if m =? 2 then (if is_leap y then 29 else 28)
  else if (m =? 4) || (m =? 6) || (m =? 9) || (m =? 11) then 30
  else 31.

(** [YYYY-MM-DD] at the head of the string. *)
Definition iso_date (s : pystr) : option (N * N * N * pystr) :=
  match s with
  | y1 :: y2 :: y3 :: y4 :: 45 :: m1 :: m2 :: 45 :: d1 :: d2 :: rest =>
      match num2 y1 y2, num2 y3 y4, num2 m1 m2, num2 d1 d2 with
      | Some yh, Some yl, Some m, Some d =>
          let y := 100 * yh + yl in
          if (1 <=? y) && (1 <=? m) && (m <=? 12) && (1 <=? d)
             && (d <=? days_in_month y m)
          then Some (y, m, d, rest) else None
      | _, _, _, _ => None
      end
  | _ => None
  end.

(** [.fff] or [.ffffff], as microseconds. *)
Definition iso_fraction (s : pystr) : option (N * pystr) :=
  match s with
  | 46 :: a :: b :: c :: rest =>
      match num2 48 a, num2 b c with
      | Some x, Some y =>
          match rest with
          | d :: e :: f :: rest' =>
              match num2 48 d, num2 e f with
              | Some u, Some v =>
                  Some (1000 * (100 * x + y) + (100 * u + v), rest')
              | _, _ => Some (1000 * (100 * x + y), rest)
              end
          | _ => Some (1000 * (100 * x + y), rest)
          end
      | _, _ => None
      end
  | _ => Some (0, s)
  end.

(** [HH[:MM[:SS[.fff[fff]]]]] *)
Definition iso_time (s : pystr) : option (N * N * N * N * pystr) :=
  match s with
  | h1 :: h2 :: rest =>
      match num2 h1 h2 with
      | Some hh =>
          if hh <? 24 then
            match rest with
            | 58 :: m1 :: m2 :: rest1 =>
                match num2 m1 m2 with
                | Some mm =>
                    if mm <? 60 then
                      match rest1 with
                      | 58 :: s1 :: s2 :: rest2 =>
                          match num2 s1 s2 with
                          | Some ss =>
                              if ss <? 60 then
                                match iso_fraction rest2 with
                                | Some (us, rest3) => Some (hh, mm, ss, us, rest3)
                                | None => None
                                end
                              else None
                          | None => None
                          end
                      | _ => Some (hh, mm, 0, 0, rest1)
                      end
                    else None
                | None => None
                end
            | _ => Some (hh, 0, 0, 0, rest)
            end
          else None
      | None => None
      end
  | _ => None
  end.

(** The offset [+HH:MM] or [-HH:MM] that ends the string, in minutes. *)
Definition iso_offset (s : pystr) : option (option (bool * N)) :=
  match s with
  | [] => Some None
  | [sign; h1; h2; 58; m1; m2] =>
      if (sign =? 43) || (sign =? 45) then
        match num2 h1 h2, num2 m1 m2 with
        | Some hh, Some mm =>
            if (hh <? 24) && (mm <? 60)
            then Some (Some (sign =? 43, 60 * hh + mm)) else None
        | _, _ => None
        end
      else None
  | _ => None
  end.

(** A model of [datetime.fromisoformat] on the strings that
    [datetime.isoformat] writes: a date, then perhaps one separator
    character, a time and an offset. *)
Definition fromisoformat_model (s : pystr) : result datetime :=
  let invalid := Raise (py "Invalid isoformat string") in
  match iso_date s with
  | Some (y, m, d, []) =>
      Ok {| year := y; month := m; day := d; hour := 0; minute := 0;
            second := 0; microsecond := 0; utcoffset := None |}
  | Some (y, m, d, _ :: rest) =>
      match iso_time rest with
      | Some (hh, mm, ss, us, rest') =>
          match iso_offset rest' with
          | Some off =>
              Ok {| year := y; month := m; day := d; hour := hh; minute := mm;
                    second := ss; microsecond := us; utcoffset := off |}
          | None => invalid
          end
      | None => invalid
      end
  | None => invalid
  end.

Definition reference_iso : IsoParser := {| fromisoformat := fromisoformat_model |}.

(** A renderer that returns the markup it is given, for the examples in
    which the rendering plays no part. *)
Definition echo_renderer : Html2Text := {| h2t_handle := fun s => Ok s |}.

(** A posts directory with the given readable files, where every output
    file can be written. *)
Definition files_fs (files : list (pystr * pystr)) : FileSystem :=
  {| read_text name :=
       match get_attr name files with
       | Some text => Ok text
       | None => Raise (py "[Errno 2] No such file or directory")
       end;
     write_error _ := None;
     posts_csv_path := py "export/posts.csv";
     posts_dir_path := py "export/posts";
     output_dir_abspath := py "/export/markdown_posts" |}.

(** ** The sentences of the specification, as definitions

    These follow the words of the specification; the theorems below
    compare them with the definitions above. *)

(** "Collapses every run of whitespace-or-hyphen characters into a single
    hyphen": the hyphen is written where a run ends. *)
Fixpoint spec_collapse_runs (s : pystr) : pystr :=
  match s with
  | [] => []
  | c :: t =>
      if hyphen_or_space c then
        match t with
        | [] => [hyphen]
        | c' :: _ =>
            if hyphen_or_space c' then spec_collapse_runs t
            else hyphen :: spec_collapse_runs t
        end
      else c :: spec_collapse_runs t
  end.

(** "Strips every character that is not [kept], trims surrounding
    whitespace, then collapses every run of whitespace-or-hyphen". *)
Definition spec_sanitize_title (kept : N -> bool) (title : pystr) : pystr :=
  spec_collapse_runs (strip (List.filter kept title)).

Section SpecClasses.
Context `{UnicodeDB}.

(** "Alphanumeric, whitespace, or hyphen". *)
Definition alnum_space_hyphen (c : N) : bool :=
  is_alnum c || is_space c || (c =? hyphen).

(** Word character, whitespace, or hyphen: what [[^\w\s-]] leaves. *)
Definition word_space_hyphen (c : N) : bool :=
  is_word c || is_space c || (c =? hyphen).
End SpecClasses.

(** No two neighbours of [s] are both [c]. *)
Fixpoint no_double (c : N) (s : pystr) : bool :=
  match s with
  | a :: ((b :: _) as t) => negb ((a =? c) && (b =? c)) && no_double c t
  | _ => true
  end.

(** ** Sample inputs *)

(** The title ["Hello, World! — Part 2"]; the dash is U+2014. *)
Definition hello_world_title : pystr :=
  py "Hello, World! " ++ [8212] ++ py " Part 2".

(** The record of the frontmatter example. *)
Definition hello_world_meta : post_meta :=
  {| title := Some (py "Hello World");
     subtitle := Some [];
     date := Some (py "2024-03-01T12:00:00Z");
     type := Some (py "newsletter");
     published := Some true |}.

(** A record whose title holds double quotes: [Say "hi"]. *)
Definition quoted_title_meta : post_meta :=
  {| title := Some (py "Say " ++ [dq] ++ py "hi" ++ [dq]);
     subtitle := Some (py " a " ++ [dq] ++ py "b" ++ [dq] ++ py " ");
     date := Some (py "2024-03-01");
     type := Some (py "newsletter");
     published := Some true |}.

(** ** The frontmatter, line by line *)

Definition unlines (ls : list pystr) : pystr :=
  flat_map (fun l => l ++ nl) ls.

Definition title_line (metadata : post_meta) : pystr :=
  py "title: " ++ [dq] ++ default (py "Untitled") (title metadata) ++ [dq].

(** The subtitle line, "only emitted if non-empty after trimming". *)
Definition subtitle_lines (metadata : post_meta) : list pystr :=
  match strip (default [] (subtitle metadata)) with
  | [] => []
  | s => [py "subtitle: " ++ [dq] ++ s ++ [dq]]
  end.

Section SpecFrontmatter.
Context `{IsoParser}.

(** The header block of section 4.3 of the specification. *)
Definition spec_frontmatter_lines (post_id : pystr) (metadata : post_meta)
    : list pystr :=
  [py "---"; title_line metadata]
  ++ subtitle_lines metadata
  ++ [py "date: " ++ _format_date (default [] (date metadata));
      py "type: " ++ default (py "post") (type metadata);
      py "published: "
        ++ (if default false (published metadata) then py "true" else py "false");
      py "substack_id: " ++ post_id;
      py "---"].
End SpecFrontmatter.

(** The key of a header line: what stands before its first colon. *)
Definition line_key (line : pystr) : pystr := split_first 58 line.

Definition count_char (c : N) (s : pystr) : nat :=
  length (List.filter (N.eqb c) s).

Definition is_digit (c : N) : bool := (48 <=? c) && (c <=? 57).



(** ** Rows of [posts.csv] *)

Definition row_columns : list string :=
  ["post_id"; "title"; "subtitle"; "post_date"; "type"; "is_published"]%string.

(** A valid row has the six columns the loader reads. *)
Definition valid_row (r : row) : Prop :=
  Forall (fun k => is_Some (r !! k)) row_columns.

Definition field (r : row) (k : string) : pystr := default [] (r !! k).

(** The key of a row: its [post_id] up to the first dot. *)
Definition row_key (r : row) : pystr := split_first 46 (field r "post_id").

(** The entry of a row. *)
Definition row_meta (r : row) : post_meta :=
  {| title := Some (field r "title");
     subtitle := Some (field r "subtitle");
     date := Some (field r "post_date");
     type := Some (field r "type");
     published := Some (bool_decide (field r "is_published" = py "true")) |}.

(** What the loop leaves: each row written over what was there. *)
Definition insert_rows (rows : list row) (metadata : gmap pystr post_meta)
    : gmap pystr post_meta :=
  foldl (fun m r => <[row_key r := row_meta r]> m) metadata rows.

Definition make_row (post_id title subtitle post_date type is_published : string)
    : row :=
  list_to_map [("post_id", py post_id); ("title", py title);
               ("subtitle", py subtitle); ("post_date", py post_date);
               ("type", py type); ("is_published", py is_published)]%string.

Definition sample_rows : list row :=
  [make_row "101.hello-world" "Hello World" "" "2024-03-01T12:00:00Z"
            "newsletter" "true";
   make_row "102.draft" "Draft" "soon" "2024-03-02T12:00:00Z"
            "newsletter" "false"].

(** ** Noise in a tree *)

(** The marker names of the three noise categories. *)
Definition noise_markers : list pystr :=
  noise_subscription ++ noise_poll ++ noise_share.

(** The node is, or holds, a [div] that [find_all] would match. *)
Fixpoint has_marked_div (markers : list pystr) (n : node) : bool :=
  match n with
  | Elem name attrs kids =>
      div_with_class markers name attrs
      || existsb (has_marked_div markers) kids
  | _ => false
  end.

(** Every character of the class is [h] and stands alone. *)
Fixpoint collapsed (cls : N -> bool) (h : N) (s : pystr) : bool :=
  match s with
  | [] => true
  | a :: t =>
      (if cls a
       then (a =? h) && match t with
                        | b :: _ => negb (cls b)
                        | [] => true
                        end
       else true)
      && collapsed cls h t
  end.

(** ** Sample documents *)

(** [a<br><br>b] *)
Definition double_break_html : pystr := py "a<br><br>b".



(** ** The outcome of one file, read off the code *)

Definition error_line (name e : pystr) : pystr :=
  py "Error converting " ++ name ++ py ": " ++ e.

Definition skipped_line (name : pystr) : pystr :=
  py "Skipping unpublished post: " ++ name.

Definition converted_line (name output_filename : pystr) : pystr :=
  py "Converted: " ++ name ++ py " -> " ++ output_filename.

Section Outcome.
Context `{UnicodeDB} `{HtmlParser} `{Html2Text} `{IsoParser} `{FileSystem}.

(** The metadata of a file, [{}] when the table has none. *)
Definition metadata_of (posts_metadata : gmap pystr post_meta)
    (name : pystr) : post_meta :=
  default no_meta (posts_metadata !! _extract_post_id name).

(** The name of the output file (lines 175-180). *)
Definition output_filename_of (posts_metadata : gmap pystr post_meta)
    (name : pystr) : pystr :=
  _extract_post_id name ++ py "_"
    ++ safe_title_of
         (default (stem name) (title (metadata_of posts_metadata name)))
    ++ py ".md".

(** What is written for a rendered body (lines 165-172). *)
Definition full_content_of (posts_metadata : gmap pystr post_meta)
    (name markdown : pystr) : pystr :=
  _create_frontmatter (_extract_post_id name) (metadata_of posts_metadata name)
    ++ strip (sub_blank_lines markdown).

(** The four outcomes of a file. *)
Inductive outcome : Type :=
| Converted (output_filename content : pystr)
| SkippedUnpublished
| Failed (e : pystr).

Definition outcome_of (posts_metadata : gmap pystr post_meta)
    (name : pystr) : outcome :=
  match read_text name with
  | Raise e => Failed e
  | Ok html_content =>
      if negb (default true (published (metadata_of posts_metadata name)))
      then SkippedUnpublished
      else
        match h2t_handle (_clean_html_content html_content) with
        | Raise e => Failed e
        | Ok markdown =>
            match write_error (output_filename_of posts_metadata name) with
            | Some e => Failed e
            | None =>
                Converted (output_filename_of posts_metadata name)
                          (full_content_of posts_metadata name markdown)
            end
        end
  end.

(** The line printed for a file. *)
Definition report_of (posts_metadata : gmap pystr post_meta)
    (name : pystr) : pystr :=
  match outcome_of posts_metadata name with
  | Converted output_filename _ => converted_line name output_filename
  | SkippedUnpublished => skipped_line name
  | Failed e => error_line name e
  end.

Definition is_converted (o : outcome) : bool :=
  match o with
  | Converted _ _ => true
  | _ => false
  end.

(** The change a file makes to the world. *)
Definition apply_outcome (posts_metadata : gmap pystr post_meta)
    (name : pystr) (w : world) : world :=
  World
    match outcome_of posts_metadata name with
    | Converted output_filename content =>
        <[output_filename := content]> (outputs w)
    | _ => outputs w
    end
    (console w ++ [report_of posts_metadata name]).
End Outcome.

(** ** A sample export *)

(** Three posts on disk: one published, one draft, one without a row in
    [posts.csv]; a fourth file is listed and cannot be read. *)
Definition sample_fs : FileSystem :=
  files_fs [(py "101.hello-world.html", py "<p>Hello</p>");
            (py "102.draft.html", py "<p>Soon</p>");
            (py "123.html", py "<p>hi</p>")].

Definition sample_metadata : gmap pystr post_meta :=
  insert_rows sample_rows ∅.

Definition empty_world : world := World ∅ [].

(** An alt text that closes the attribute and opens a poll embed. *)
Definition injected_alt_html : pystr :=
  py "<div class='captioned-image-container'><img src='a.png' alt='"
    ++ [dq] ++ py "><div class=poll-embed>x</div>'></div>".

(** The rows of a file whose header has no column [title]. *)
Definition rows_without_title : list row :=
  [list_to_map [("post_id", py "101.hello-world"); ("subtitle", []);
                ("post_date", py "2024-03-01T12:00:00Z");
                ("type", py "newsletter"); ("is_published", py "true")];
   list_to_map [("post_id", py "102.draft"); ("subtitle", py "soon");
                ("post_date", py "2024-03-02T12:00:00Z");
                ("type", py "newsletter"); ("is_published", py "false")]]%string.

(** Two rows of one post id. *)
Definition republished_rows : list row :=
  [make_row "101.hello-world" "Hello World" "" "2024-03-01T12:00:00Z"
            "newsletter" "false";
   make_row "101.hello-again" "Hello Again" "" "2024-04-01T12:00:00Z"
            "newsletter" "true"].


(** A [span] that carries a noise marker. *)
Definition marked_span : node :=
  Elem (py "span") [(py "class", py "poll-embed")] [Text (py "x")].

(** ** What a batch writes *)

Section Writes.
Context `{UnicodeDB} `{HtmlParser} `{Html2Text} `{IsoParser} `{FileSystem}.

(** The files written for a list of inputs, in order: name and content. *)
Definition writes_of (posts_metadata : gmap pystr post_meta)
    (files : list pystr) : list (pystr * pystr) :=
  flat_map (fun f =>
    match outcome_of posts_metadata f with
    | Converted output_filename content => [(output_filename, content)]
    | _ => []
    end) files.
End Writes.

(** Writing files one after the other. *)
Definition write_all (writes : list (pystr * pystr))
    (dir : gmap pystr pystr) : gmap pystr pystr :=
  foldl (fun m kv => <[kv.1 := kv.2]> m) dir writes.

(** The content last written under a name, if any. *)
Definition last_write (name : pystr) (writes : list (pystr * pystr))
    : option pystr :=
  foldl (fun acc kv => if bool_decide (kv.1 = name) then Some kv.2 else acc)
        None writes.

(** Two files of one post, which get one output name. *)
Definition collision_fs : FileSystem :=
  files_fs [(py "101.first.html", py "<p>one</p>");
            (py "101.second.html", py "<p>two</p>")].

(** ** Newlines in a text *)

(** No three newlines follow each other; [k] newlines stand just before
    the text. *)
Fixpoint no_triple_from (k : nat) (s : pystr) : bool :=
  match s with
  | [] => true
  | c :: t =>
      if is_newline c then Nat.ltb k 2 && no_triple_from (S k) t
      else no_triple_from 0 t
  end.

Definition no_triple_newline (s : pystr) : bool := no_triple_from 0 s.

(** The number of newlines a text starts with. *)
Definition leading_newlines (s : pystr) : nat :=
  length (take_while is_newline s).

(** The first character, if there is one, is not whitespace. *)
Definition starts_clean (s : pystr) : bool :=
  match s with
  | [] => true
  | c :: _ => negb (is_space c)
  end.

(** ** Choosing the export directory *)

(** What the Unicode database says of a code point as a digit: none, a
    digit that has no decimal value (a superscript two), or a decimal
    digit. *)
Inductive digit_class : Type :=
| NotDigit
| DigitOnly
| Decimal (value : nat).

(** The Unicode database beyond ASCII, for [str.isdigit] and [int]. *)
Class DigitDB := { uni_digit : N -> digit_class }.

(** [os.path.join] *)
Class OsPath := { path_join : pystr -> pystr -> pystr }.

Section Digits.
Context `{DigitDB}.

Definition digit_class_of (c : N) : digit_class :=
  if c <? 128
  then (if is_digit c then Decimal (N.to_nat (c - 48)) else NotDigit)
  else uni_digit c.

(** [s.isdigit()] *)
Definition isdigit (s : pystr) : bool :=
  match s with
  | [] => false
  | _ =>
      forallb (fun c => match digit_class_of c with
                        | NotDigit => false
                        | _ => true
                        end) s
  end.

Fixpoint int_digits (acc : nat) (s : pystr) : option nat :=
  match s with
  | [] => Some acc
  | c :: t =>
      match digit_class_of c with
      | Decimal v => int_digits (10 * acc + v) t
      | _ => None
      end
  end.

(** [sys.int_info.default_max_str_digits]: the digits [int] converts at
    most.  The program leaves the limit of the interpreter as it is. *)
Definition int_max_str_digits : nat := 4300.

Definition is_decimal (c : N) : bool :=
  match digit_class_of c with
  | Decimal _ => true
  | _ => false
  end.

(** The text of the [ValueError] for too many digits. *)
Definition exceeds_limit (digits : nat) : pystr :=
  py "Exceeds the limit (" ++ str_nat int_max_str_digits
    ++ py " digits) for integer string conversion: value has "
    ++ str_nat digits
    ++ py " digits; use sys.set_int_max_str_digits() to increase the limit".

(** The text of the [ValueError] for a string that is no number: the
    [repr] of the string, cut at 200 characters. *)
Definition invalid_literal (s : pystr) : pystr :=
  py "invalid literal for int() with base 10: "
    ++ take 200 ([39] ++ s ++ [39]).

(** [int(s)] on a string of digits.  The decimal digits at its start are
    counted first, and more of them than the limit raise [ValueError];
    a digit that has no decimal value raises [ValueError] too. *)
Definition int_of (s : pystr) : result nat :=
  let digits := length (take_while is_decimal s) in
  if Nat.ltb int_max_str_digits digits then Raise (exceeds_limit digits)
  else
    match s, int_digits 0 s with
    | _ :: _, Some n => Ok n
    | _, _ => Raise (invalid_literal s)
    end.
End Digits.

(** An entry of the [export] folder: its name, whether it is a directory,
    and its modification time as lines 245 writes it. *)
Record dir_entry : Type := {
  entry_name : pystr;
  entry_is_dir : bool;
  entry_modified : pystr
}.

(** What [input] gives: a line, or Ctrl-C.  When the list of events is
    used up, the input has ended. *)
Inductive input_event : Type :=
| Line (s : pystr)
| Interrupt.

Definition export_base : pystr := py "export".

Section Select.
Context `{DigitDB} `{OsPath}.

(** The loop of lines 248-266.  The prompt of [input] is not a call of
    [print] and is not recorded.  A [ValueError] of [int] is not among the
    exceptions the loop catches. *)
Fixpoint choose (directories : list dir_entry) (inputs : list input_event)
    : M (option pystr) :=
  match inputs with
  | Line s :: rest =>
      let choice := strip s in
      if bool_decide (lower choice = py "q") then ret None
      else if isdigit choice then
        n <- lift (int_of choice) ;;
        if Nat.leb 1 n && Nat.leb n (length directories) then
          match nth_error directories (Nat.sub n 1) with
          | Some entry =>
              let selected_dir := path_join export_base (entry_name entry) in
              print (py "Selected: " ++ selected_dir) ;;;
              ret (Some selected_dir)
          | None => lift (Raise (py "list index out of range"))
          end
        else
          print (py "Invalid choice. Please try again.") ;;;
          choose directories rest
      else
        print (py "Invalid choice. Please try again.") ;;;
        choose directories rest
  | Interrupt :: _ | [] =>
      print (nl ++ py "Operation cancelled.") ;;;
      ret None
  end.

(** Lines 244-246: one line for each directory, numbered from [i]. *)
Fixpoint print_listing (i : nat) (directories : list dir_entry) : M unit :=
  match directories with
  | [] => ret tt
  | entry :: rest =>
      print (str_nat i ++ py ". " ++ entry_name entry
               ++ py " (last modified: " ++ entry_modified entry ++ py ")") ;;;
      print_listing (S i) rest
  end.

(** [select_export_directory] (lines 219-266); [export] is [None] when
    the folder [export] does not exist, else its entries. *)
Definition select_export_directory (export : option (list dir_entry))
    (inputs : list input_event) : M (option pystr) :=
  match export with
  | None =>
      print (py "Export folder 'export' not found.") ;;;
      print (py "Please create the export folder and unzip your Substack export zip file in it.") ;;;
      ret None
  | Some entries =>
      let directories := List.filter entry_is_dir entries in
      match directories with
      | [] =>
          print (py "No directories found in the export folder.") ;;;
          print (py "Please unzip your Substack export zip file in the export folder.") ;;;
          ret None
      | _ =>
          print (nl ++ py "Available export directories:") ;;;
          print_listing 1 directories ;;;
          choose directories inputs
      end
  end.
End Select.

(** ** The program *)

(** What is found below an export directory, and whether the output
    directory can be made. *)
Class Exports := {
  export_files : pystr -> FileSystem;
  export_csv : pystr -> option (list row);
  export_listing : pystr -> option (list pystr);
  mkdir_error : pystr -> option pystr
}.

Section Main.
Context `{UnicodeDB} `{HtmlParser} `{Html2Text} `{IsoParser}.
Context `{DigitDB} `{OsPath} `{Exports}.

(** [SubstackConverter.__init__] (lines 26-45): make the output
    directory, then load the metadata. *)
Definition init_converter (export_dir output_dir : pystr)
    : M (gmap pystr post_meta) :=
  match mkdir_error output_dir with
  | Some e => lift (Raise e)
  | None =>
      @_load_posts_metadata (export_files export_dir) (export_csv export_dir)
  end.

(** [main] (lines 269-283). *)
Definition main (export : option (list dir_entry))
    (inputs : list input_event) : M unit :=
  export_dir <- select_export_directory export inputs ;;
  match export_dir with
  | None | Some [] => ret tt
  | Some export_dir =>
      let output_dir := path_join export_dir (py "markdown_posts") in
      print (nl ++ py "Output directory: " ++ output_dir) ;;;
      posts_metadata <- init_converter export_dir output_dir ;;
      fun w =>
        (Ok tt,
         @convert_all _ _ _ _ (export_files export_dir) posts_metadata
           (export_listing export_dir) w)
  end.
End Main.

(** Reference instances: the superscript digits of Latin-1 are digits
    without a decimal value; paths are joined with a slash. *)
Definition latin1_digits : DigitDB :=
  {| uni_digit c :=
       if (c =? 178) || (c =? 179) || (c =? 185) then DigitOnly
       else NotDigit |}.

Definition posix_path : OsPath :=
  {| path_join a b := a ++ py "/" ++ b |}.

Definition sample_export : list dir_entry :=
  [{| entry_name := py "2024-03-01"; entry_is_dir := true;
      entry_modified := py "2024-03-01 12:00" |};
   {| entry_name := py "export.zip"; entry_is_dir := false;
      entry_modified := py "2024-03-01 11:59" |};
   {| entry_name := py "2024-04-01"; entry_is_dir := true;
      entry_modified := py "2024-04-01 12:00" |}].

Definition sample_exports : Exports :=
  {| export_files _ := sample_fs;
     export_csv _ := Some sample_rows;
     export_listing _ :=
       Some [py "101.hello-world.html"; py "102.draft.html"; py "123.html"];
     mkdir_error _ := None |}.

Definition invalid_line : pystr := py "Invalid choice. Please try again.".

Section SelectSpec.
Context `{DigitDB}.

(** A line that the loop answers with "Invalid choice": it is not [q],
    and it is not a number of the list either. *)
Definition invalid_choice (n_dirs : nat) (s : pystr) : Prop :=
  lower (strip s) <> py "q"
  /\ (isdigit (strip s) = false
      \/ exists n, int_of (strip s) = Ok n /\ (n = 0 \/ n_dirs < n)%nat).
End SelectSpec.

(** The line of the listing for the directory numbered [i]. *)
Definition listing_line (i : nat) (entry : dir_entry) : pystr :=
  str_nat i ++ py ". " ++ entry_name entry
    ++ py " (last modified: " ++ entry_modified entry ++ py ")".

(** * Theorems *)

(** ** Strings *)

Lemma Forall_drop_while (P : N -> Prop) p s :
  Forall P s -> Forall P (drop_while p s).
Proof.
  induction 1 as [|c t Hc Ht IH]; simpl; [constructor|].
  destruct (p c); [assumption | now constructor].
Qed.

Lemma Forall_strip (P : N -> Prop) s : Forall P s -> Forall P (strip s).
Proof.
  intros Hs. unfold strip, rstrip, lstrip.
  apply Forall_rev, Forall_drop_while, Forall_rev, Forall_drop_while, Hs.
Qed.

Lemma re_sub_class_delete cls s :
  re_sub_class cls [] s = List.filter (fun c => negb (cls c)) s.
Proof.
  unfold re_sub_class. induction s as [|c t IH]; simpl; [reflexivity|].
  destruct (cls c); simpl; now rewrite IH.
Qed.

Lemma re_sub_runs_from_chars (P : N -> Prop) cls repl in_run s :
  Forall P repl ->
  Forall (fun c => cls c = false -> P c) s ->
  Forall P (re_sub_runs_from cls repl in_run s).
Proof.
  intros Hrepl Hs. revert in_run.
  induction Hs as [|c t Hc Ht IH]; intros in_run; simpl; [constructor|].
  destruct (cls c) eqn:E.
  - apply Forall_app. split; [destruct in_run; [constructor | assumption]|].
    apply IH.
  - constructor; [now apply Hc | apply IH].
Qed.

(** After a run is collapsed into [h], itself of the class, no two [h]
    are neighbours; inside a run the next character written is not [h]. *)
Lemma re_sub_runs_from_no_double cls h in_run s :
  cls h = true ->
  no_double h (re_sub_runs_from cls [h] in_run s) = true
  /\ (in_run = true ->
      match re_sub_runs_from cls [h] in_run s with
      | c :: _ => (c =? h) = false
      | [] => True
      end).
Proof.
  intros Hh. revert in_run.
  induction s as [|c t IH]; intros in_run; simpl; [easy|].
  destruct (cls c) eqn:E.
  - destruct (IH true) as [Hnd Hhd]. specialize (Hhd eq_refl).
    destruct in_run; simpl.
    + split; [exact Hnd | intros _; exact Hhd].
    + split; [|discriminate].
      destruct (re_sub_runs_from cls [h] true t) as [|d u] eqn:Et; [reflexivity|].
      rewrite Hhd, andb_false_r. exact Hnd.
  - assert (Hc : (c =? h) = false).
    { apply N.eqb_neq. intros ->. congruence. }
    destruct (IH false) as [Hnd _].
    split; [|intros _; exact Hc].
    destruct (re_sub_runs_from cls [h] false t) as [|d u] eqn:Et; [reflexivity|].
    simpl. rewrite Hc. exact Hnd.
Qed.

Lemma re_sub_runs_spec_collapse s :
  re_sub_runs_from hyphen_or_space [hyphen] false s = spec_collapse_runs s
  /\ match s with
     | c :: _ =>
         if hyphen_or_space c
         then hyphen :: re_sub_runs_from hyphen_or_space [hyphen] true s
              = spec_collapse_runs s
         else re_sub_runs_from hyphen_or_space [hyphen] true s
              = spec_collapse_runs s
     | [] => True
     end.
Proof.
  induction s as [|c t [IH1 IH2]]; [easy|].
  cbn [re_sub_runs_from spec_collapse_runs].
  destruct (hyphen_or_space c) eqn:E.
  - destruct t as [|c' t']; [easy|].
    destruct (hyphen_or_space c') eqn:E'.
    + cbn [app]. rewrite <- IH2. easy.
    + cbn [app]. rewrite <- IH2. easy.
  - now rewrite IH1.
Qed.

(** ** The scans of [re.sub] end *)

Lemma drop_while_length p s : (length (drop_while p s) <= length s)%nat.
Proof.
  induction s as [|c t IH]; cbn [drop_while]; [lia|].
  destruct (p c); cbn [length]; lia.
Qed.

Lemma take_drop_while p s : take_while p s ++ drop_while p s = s.
Proof.
  induction s as [|c t IH]; cbn [take_while drop_while]; [reflexivity|].
  destruct (p c); cbn [app]; [now rewrite IH | reflexivity].
Qed.

Lemma take_while_stops p s :
  existsb (fun c => negb (p c)) s = true ->
  (length (take_while p s) < length s)%nat.
Proof.
  induction s as [|c t IH]; cbn [existsb take_while]; [discriminate|].
  destruct (p c); cbn [negb orb length]; [|lia].
  intros Ht. apply IH in Ht. lia.
Qed.

Lemma match_br_shorter s rest :
  match_br s = Some rest -> (length rest < length s)%nat.
Proof.
  unfold match_br.
  destruct s as [|a [|b [|c t]]]; try discriminate.
  destruct ((a =? 60) && (b =? 98) && (c =? 114)); [|discriminate].
  pose proof (drop_while_length is_space t) as Hdrop.
  destruct (drop_while is_space t) as [|d u]; [discriminate|].
  destruct (d =? 47).
  - destruct u as [|d' u']; [discriminate|].
    destruct (d' =? 62); [|discriminate].
    intros E; injection E as <-. cbn [length] in *. lia.
  - destruct (d =? 62); [|discriminate].
    intros E; injection E as <-. cbn [length] in *. lia.
Qed.

Lemma match_br_br_shorter s rest :
  match_br_br s = Some rest -> (length rest < length s)%nat.
Proof.
  unfold match_br_br. destruct (match_br s) as [t|] eqn:E; [|discriminate].
  intros E'. apply match_br_shorter in E, E'.
  pose proof (drop_while_length is_space t). lia.
Qed.

(** More fuel than the length of the string changes nothing. *)
Lemma sub_br_br_fuel_enough fuel s :
  (length s <= fuel)%nat -> sub_br_br_fuel fuel s = sub_br_br s.
Proof.
  unfold sub_br_br.
  assert (Hany : forall f1 f2 t, (length t <= f1)%nat -> (length t <= f2)%nat ->
                   sub_br_br_fuel f1 t = sub_br_br_fuel f2 t).
  { induction f1 as [|f1 IH]; intros f2 t H1 H2.
    - destruct t; [|cbn in H1; lia]. now destruct f2.
    - destruct f2 as [|f2]; [destruct t; [reflexivity | cbn in H2; lia]|].
      cbn [sub_br_br_fuel]. destruct t as [|c t]; [reflexivity|].
      destruct (match_br_br (c :: t)) as [rest|] eqn:E.
      + apply match_br_br_shorter in E. cbn [length] in *.
        f_equal. f_equal. apply IH; lia.
      + cbn [length] in *. f_equal. apply IH; lia. }
  intros Hlen. now apply Hany.
Qed.

Lemma match_blank_lines_shorter s rest :
  match_blank_lines s = Some rest -> (length rest < length s)%nat.
Proof.
  unfold match_blank_lines. destruct s as [|c t]; [discriminate|].
  destruct (is_newline c); [|discriminate].
  set (s := c :: t). set (run := take_while is_space s).
  destruct (3 <=? count_newlines run)%nat eqn:E; [|discriminate].
  intros E'. injection E' as <-.
  apply Nat.leb_le in E.
  assert (Hrun : (length (take_while (fun c => negb (is_newline c)) (rev run))
                  < length (rev run))%nat).
  { apply take_while_stops. apply existsb_exists.
    unfold count_newlines in E.
    destruct (List.filter is_newline run) as [|x l] eqn:Ef; [cbn in E; lia|].
    assert (Hx : In x (List.filter is_newline run)) by (rewrite Ef; now left).
    apply filter_In in Hx. destruct Hx as [Hin Hnl].
    exists x. split; [now apply in_rev in Hin | now rewrite Hnl]. }
  rewrite length_rev in Hrun.
  pose proof (f_equal length (take_drop_while is_space s)) as Hsplit.
  rewrite length_app in Hsplit. fold run in Hsplit.
  rewrite !length_app, length_rev.
  change (if is_space c then drop_while is_space t else c :: t)
    with (drop_while is_space s).
  lia.
Qed.

Lemma sub_blank_lines_fuel_enough fuel s :
  (length s <= fuel)%nat -> sub_blank_lines_fuel fuel s = sub_blank_lines s.
Proof.
  unfold sub_blank_lines.
  assert (Hany : forall f1 f2 t, (length t <= f1)%nat -> (length t <= f2)%nat ->
                   sub_blank_lines_fuel f1 t = sub_blank_lines_fuel f2 t).
  { induction f1 as [|f1 IH]; intros f2 t H1 H2.
    - destruct t; [|cbn in H1; lia]. now destruct f2.
    - destruct f2 as [|f2]; [destruct t; [reflexivity | cbn in H2; lia]|].
      cbn [sub_blank_lines_fuel]. destruct t as [|c t]; [reflexivity|].
      destruct (match_blank_lines (c :: t)) as [rest|] eqn:E.
      + apply match_blank_lines_shorter in E. cbn [length] in *.
        f_equal. f_equal. apply IH; lia.
      + cbn [length] in *. f_equal. apply IH; lia. }
  intros Hlen. now apply Hany.
Qed.

(** ** Filename sanitization *)

Section SafeTitle.
Context `{UnicodeDB}.

Lemma not_word_space_hyphen_neg c :
  negb (not_word_space_hyphen c) = word_space_hyphen c.
Proof. unfold not_word_space_hyphen. apply negb_involutive. Qed.

Lemma safe_title_of_unfold title :
  safe_title_of title
  = re_sub_runs hyphen_or_space [hyphen]
      (strip (List.filter word_space_hyphen title)).
Proof.
  unfold safe_title_of. rewrite re_sub_class_delete.
  f_equal. f_equal. apply filter_ext. intros c.
  apply not_word_space_hyphen_neg.
Qed.
End SafeTitle.

(** C4, as stated, at the title [a_b]: the underscore is neither
    alphanumeric, nor whitespace, nor a hyphen, and the code keeps it,
    where the sentence of the specification gives [ab]. *)
Lemma C4_underscore_kept :
  @safe_title_of latin1_db (py "a_b") = py "a_b"
  /\ @spec_sanitize_title (@alnum_space_hyphen latin1_db) (py "a_b") = py "ab"
  /\ @alnum_space_hyphen latin1_db underscore = false.
Proof. repeat split; reflexivity. Qed.

(** C4, amended: the filename sanitization strips every character that is
    not a word character (alphanumeric or underscore), whitespace or
    hyphen, trims surrounding whitespace, then collapses every run of
    whitespace-or-hyphen characters into a single hyphen; so the result
    holds word characters and single hyphens only, and the title
    ["Hello, World! — Part 2"] sanitizes to [Hello-World-Part-2]. *)
Theorem C4_safe_title `{UnicodeDB} (title : pystr) :
  safe_title_of title = spec_sanitize_title word_space_hyphen title
  /\ Forall (fun c => is_word c = true \/ c = hyphen) (safe_title_of title)
  /\ no_double hyphen (safe_title_of title) = true
  /\ (uni_isalnum 8212 = false ->
      safe_title_of hello_world_title = py "Hello-World-Part-2").
Proof.
  rewrite safe_title_of_unfold. unfold re_sub_runs, spec_sanitize_title.
  split; [apply re_sub_runs_spec_collapse|].
  split.
  - apply re_sub_runs_from_chars; [constructor; [now right | constructor]|].
    apply Forall_strip. apply List.Forall_forall. intros c Hc.
    apply filter_In in Hc. destruct Hc as [_ Hc]. intros Hsep. left.
    unfold word_space_hyphen in Hc. unfold hyphen_or_space in Hsep.
    apply orb_false_iff in Hsep. destruct Hsep as [Hh Hs].
    rewrite Hh, Hs, !orb_false_r in Hc. exact Hc.
  - split; [now apply re_sub_runs_from_no_double|].
    intros Hdash.
    assert (Hf : List.filter word_space_hyphen hello_world_title
                 = py "Hello World  Part 2").
    { unfold hello_world_title. rewrite !List.filter_app.
      cbn [List.filter]. unfold word_space_hyphen at 2, is_word, is_alnum.
      cbn. rewrite Hdash. reflexivity. }
    rewrite safe_title_of_unfold, Hf. reflexivity.
Qed.

Lemma C4_safe_title_witness :
  @safe_title_of latin1_db hello_world_title = py "Hello-World-Part-2".
Proof.
  apply (@C4_safe_title latin1_db hello_world_title). reflexivity.
Defined.

(** ** Dates *)



















(** ** The frontmatter *)

Lemma unlines_app a b : unlines (a ++ b) = unlines a ++ unlines b.
Proof. apply flat_map_app. Qed.

Lemma count_char_app c a b :
  count_char c (a ++ b) = (count_char c a + count_char c b)%nat.
Proof. unfold count_char. now rewrite List.filter_app, length_app. Qed.

Lemma count_char_In c s : In c s -> (1 <= count_char c s)%nat.
Proof.
  unfold count_char. induction s as [|a t IH]; simpl; [easy|].
  intros [->|Hin].
  - rewrite N.eqb_refl. simpl. lia.
  - destruct (c =? a); simpl; [lia | now apply IH].
Qed.

(** Concatenations, associated to the right and computed. *)
Ltac list_normal :=
  repeat rewrite <- app_assoc; cbn -[_format_date];
  repeat rewrite <- app_assoc; cbn -[_format_date].

Section FrontmatterFacts.
Context `{IsoParser}.

(** The text that [_create_frontmatter] builds is the header block of
    the specification, one line after the other, and a blank line. *)
Lemma create_frontmatter_lines post_id metadata :
  _create_frontmatter post_id metadata
  = unlines (spec_frontmatter_lines post_id metadata) ++ nl.
Proof.
  unfold _create_frontmatter, spec_frontmatter_lines, subtitle_lines,
    title_line.
  destruct (strip (default [] (subtitle metadata))) as [|c s];
    destruct (default false (published metadata));
    unfold unlines; cbn [flat_map app]; list_normal; reflexivity.
Qed.

Lemma create_frontmatter_title post_id metadata :
  exists rest,
    _create_frontmatter post_id metadata
    = py "---" ++ nl ++ title_line metadata ++ nl ++ rest.
Proof.
  rewrite create_frontmatter_lines.
  unfold spec_frontmatter_lines, unlines. cbn [app flat_map].
  eexists. list_normal. reflexivity.
Qed.
End FrontmatterFacts.

(** C5: for every metadata record the frontmatter is the block of lines
    [---], title, subtitle, date, type, published, substack_id, [---] in
    this order, where the subtitle line is there exactly when the subtitle
    is not empty after trimming; for the record of the example it is
    exactly [title: "Hello World"], no subtitle line, [date: 2024-03-01],
    [type: newsletter], [published: true]. *)
Theorem C5_frontmatter_layout `{IsoParser} (post_id : pystr)
    (metadata : post_meta) :
  _create_frontmatter post_id metadata
  = unlines (spec_frontmatter_lines post_id metadata) ++ nl
  /\ map line_key (spec_frontmatter_lines post_id metadata)
     = [py "---"; py "title"]
       ++ (if bool_decide (strip (default [] (subtitle metadata)) = [])
           then [] else [py "subtitle"])
       ++ [py "date"; py "type"; py "published"; py "substack_id"; py "---"]
  /\ (forall dt,
      fromisoformat (py "2024-03-01T12:00:00+00:00") = Ok dt ->
      year dt = 2024 -> month dt = 3 -> day dt = 1 ->
      _create_frontmatter post_id hello_world_meta
      = unlines [py "---";
                 py "title: " ++ [dq] ++ py "Hello World" ++ [dq];
                 py "date: 2024-03-01";
                 py "type: newsletter";
                 py "published: true";
                 py "substack_id: " ++ post_id;
                 py "---"] ++ nl).
Proof.
  split; [apply create_frontmatter_lines|]. split.
  - unfold spec_frontmatter_lines, subtitle_lines, title_line.
    destruct (strip (default [] (subtitle metadata))) as [|c s]; reflexivity.
  - intros dt Hdt Hy Hm Hd. rewrite create_frontmatter_lines.
    unfold spec_frontmatter_lines, subtitle_lines, title_line, _format_date.
    unfold hello_world_meta.
    cbn [date default title subtitle type published]. unfold id.
    change (replace_char 90 (py "+00:00") (py "2024-03-01T12:00:00Z"))
      with (py "2024-03-01T12:00:00+00:00").
    rewrite Hdt. cbn [bind_result try_except].
    unfold strftime_ymd. rewrite Hy, Hm, Hd. reflexivity.
Qed.

Lemma C5_frontmatter_layout_witness :
  @_create_frontmatter reference_iso (py "123") hello_world_meta
  = unlines [py "---";
             py "title: " ++ [dq] ++ py "Hello World" ++ [dq];
             py "date: 2024-03-01";
             py "type: newsletter";
             py "published: true";
             py "substack_id: 123";
             py "---"] ++ nl.
Proof.
  destruct (@C5_frontmatter_layout reference_iso (py "123") hello_world_meta)
    as (_ & _ & Hex).
  exact (Hex _ eq_refl eq_refl eq_refl eq_refl).
Defined.

(** C10: the title and the trimmed subtitle stand between double quotes
    as they are; when the value holds a double quote, its line holds more
    than two of them. *)
Theorem C10_quotes_not_escaped `{IsoParser} (post_id : pystr)
    (metadata : post_meta) :
  (forall t,
      title metadata = Some t -> In dq t ->
      title_line metadata = py "title: " ++ [dq] ++ t ++ [dq]
      /\ (exists rest,
            _create_frontmatter post_id metadata
            = py "---" ++ nl ++ title_line metadata ++ nl ++ rest)
      /\ (2 < count_char dq (title_line metadata))%nat)
  /\ (forall s,
      subtitle metadata = Some s -> In dq (strip s) ->
      let line := py "subtitle: " ++ [dq] ++ strip s ++ [dq] in
      In line (spec_frontmatter_lines post_id metadata)
      /\ (2 < count_char dq line)%nat).
Proof.
  split.
  - intros t Ht Hq. unfold title_line at 1 3. rewrite Ht.
    cbn [default]. unfold id.
    split; [reflexivity|]. split; [apply create_frontmatter_title|].
    rewrite !count_char_app. apply count_char_In in Hq.
    change (count_char dq (py "title: ")) with 0%nat.
    change (count_char dq [dq]) with 1%nat. unfold id. lia.
  - intros s Hs Hq line. split.
    + unfold spec_frontmatter_lines, subtitle_lines. rewrite Hs. cbn [default].
      unfold id. destruct (strip s) as [|c u] eqn:E; [now simpl in Hq|].
      subst line. right. right. left. reflexivity.
    + subst line. rewrite !count_char_app. apply count_char_In in Hq.
      change (count_char dq (py "subtitle: ")) with 0%nat.
      change (count_char dq [dq]) with 1%nat. lia.
Qed.

Lemma C10_quotes_not_escaped_witness :
  title_line quoted_title_meta
  = py "title: " ++ [dq] ++ py "Say " ++ [dq] ++ py "hi" ++ [dq] ++ [dq]
  /\ (2 < count_char dq (title_line quoted_title_meta))%nat
  /\ (2 < count_char dq
            (py "subtitle: " ++ [dq] ++ py "a " ++ [dq] ++ py "b" ++ [dq] ++ [dq]))%nat.
Proof.
  destruct (@C10_quotes_not_escaped reference_iso (py "7") quoted_title_meta)
    as [Ht Hs].
  destruct (Ht _ eq_refl) as (E & _ & Hc).
  { cbn. repeat (first [left; reflexivity | right]). }
  split; [exact E|]. split; [exact Hc|].
  apply (Hs _ eq_refl). cbn. repeat (first [left; reflexivity | right]).
Defined.

(** ** The metadata loader *)

Lemma getitem_valid (r : row) (k : string) :
  is_Some (r !! k) -> getitem r k = Ok (field r k).
Proof. intros [v Hv]. unfold getitem, field. now rewrite Hv. Qed.

Lemma load_row_valid (metadata : gmap pystr post_meta) (r : row) :
  valid_row r ->
  load_row metadata r = Ok (<[row_key r := row_meta r]> metadata).
Proof.
  intros Hr. unfold valid_row, row_columns in Hr.
  repeat match goal with
         | H : Forall _ (_ :: _) |- _ => apply Forall_cons in H; destruct H
         end.
  unfold load_row.
  rewrite !getitem_valid by assumption. reflexivity.
Qed.

Lemma load_rows_valid (rows : list row) (metadata : gmap pystr post_meta) :
  Forall valid_row rows ->
  load_rows rows metadata = (insert_rows rows metadata, None).
Proof.
  intros Hrows. revert metadata.
  induction Hrows as [|r rows Hr _ IH]; intros metadata; [reflexivity|].
  cbn [load_rows]. rewrite load_row_valid by assumption. apply IH.
Qed.

Lemma insert_rows_lookup_other (rows : list row)
    (metadata : gmap pystr post_meta) (k : pystr) :
  ~ In k (map row_key rows) ->
  insert_rows rows metadata !! k = metadata !! k.
Proof.
  revert metadata. induction rows as [|r rows IH]; intros metadata Hk;
    [reflexivity|].
  cbn [insert_rows foldl]. fold (insert_rows rows (<[row_key r := row_meta r]> metadata)).
  rewrite IH by (intros Hin; apply Hk; now right).
  apply lookup_insert_ne. intros E. apply Hk. now left.
Qed.

Lemma insert_rows_lookup (rows : list row) (metadata : gmap pystr post_meta)
    (r : row) :
  List.NoDup (map row_key rows) -> In r rows ->
  insert_rows rows metadata !! row_key r = Some (row_meta r).
Proof.
  revert metadata. induction rows as [|r' rows IH]; intros metadata Hnd Hin;
    [destruct Hin|].
  cbn [map] in Hnd. apply List.NoDup_cons_iff in Hnd. destruct Hnd as [Hfresh Hnd].
  cbn [insert_rows foldl]. fold (insert_rows rows (<[row_key r' := row_meta r']> metadata)).
  destruct Hin as [->|Hin].
  - rewrite insert_rows_lookup_other by assumption. apply lookup_insert_eq.
  - now apply IH.
Qed.

Lemma insert_rows_size (rows : list row) (metadata : gmap pystr post_meta) :
  List.NoDup (map row_key rows) ->
  (forall k, In k (map row_key rows) -> metadata !! k = None) ->
  size (insert_rows rows metadata) = (size metadata + length rows)%nat.
Proof.
  revert metadata. induction rows as [|r rows IH]; intros metadata Hnd Hfree.
  - cbn. lia.
  - cbn [map] in Hnd. apply List.NoDup_cons_iff in Hnd. destruct Hnd as [Hfresh Hnd].
    cbn [insert_rows foldl]. fold (insert_rows rows (<[row_key r := row_meta r]> metadata)).
    rewrite IH; [| assumption |].
    + rewrite map_size_insert_None by (apply Hfree; now left). cbn [length]. lia.
    + intros k Hk. rewrite lookup_insert_ne; [apply Hfree; now right|].
      intros <-. contradiction.
Qed.

Lemma insert_rows_keys (rows : list row) (metadata : gmap pystr post_meta)
    (k : pystr) :
  is_Some (insert_rows rows metadata !! k)
  <-> In k (map row_key rows) \/ is_Some (metadata !! k).
Proof.
  revert metadata. induction rows as [|r rows IH]; intros metadata.
  - cbn. tauto.
  - cbn [insert_rows foldl]. fold (insert_rows rows (<[row_key r := row_meta r]> metadata)).
    rewrite IH. cbn [map In].
    destruct (decide (row_key r = k)) as [->|Hne].
    + rewrite lookup_insert_eq. split; [intros _; left; now left|eauto].
    + rewrite lookup_insert_ne by assumption. tauto.
Qed.

(** When two rows have one key, the later row is the one kept. *)
Lemma insert_rows_last (rows : list row) (r : row)
    (metadata : gmap pystr post_meta) :
  insert_rows (rows ++ [r]) metadata !! row_key r = Some (row_meta r).
Proof.
  unfold insert_rows. rewrite foldl_app. cbn [foldl]. apply lookup_insert_eq.
Qed.

Lemma insert_rows_cons (r : row) (rows : list row)
    (metadata : gmap pystr post_meta) :
  insert_rows (r :: rows) metadata
  = insert_rows rows (<[row_key r := row_meta r]> metadata).
Proof. reflexivity. Qed.

Lemma insert_rows_size_le (rows : list row)
    (metadata : gmap pystr post_meta) :
  (size (insert_rows rows metadata) <= size metadata + length rows)%nat.
Proof.
  revert metadata. induction rows as [|r rows IH]; intros metadata.
  - cbn. lia.
  - rewrite insert_rows_cons. specialize (IH (<[row_key r := row_meta r]> metadata)).
    destruct (metadata !! row_key r) as [old|] eqn:E.
    + rewrite map_size_insert_Some in IH by (exists old; exact E).
      cbn [length]. lia.
    + rewrite map_size_insert_None in IH by exact E. cbn [length]. lia.
Qed.

(** As many entries as rows: then no two rows have one key. *)
Lemma insert_rows_size_full (rows : list row)
    (metadata : gmap pystr post_meta) :
  size (insert_rows rows metadata) = (size metadata + length rows)%nat ->
  List.NoDup (map row_key rows)
  /\ (forall k, In k (map row_key rows) -> metadata !! k = None).
Proof.
  revert metadata. induction rows as [|r rows IH]; intros metadata Hsize.
  - split; [constructor | intros k []].
  - rewrite insert_rows_cons in Hsize. cbn [length] in Hsize.
    pose proof (insert_rows_size_le rows (<[row_key r := row_meta r]> metadata))
      as Hle.
    destruct (metadata !! row_key r) as [old|] eqn:E.
    { rewrite map_size_insert_Some in Hle by (exists old; exact E). lia. }
    rewrite map_size_insert_None in Hle by exact E.
    destruct (IH (<[row_key r := row_meta r]> metadata)) as [Hnd Hfresh].
    { rewrite map_size_insert_None by exact E. lia. }
    assert (Hr : ~ In (row_key r) (map row_key rows)).
    { intros Hin. apply Hfresh in Hin. rewrite lookup_insert_eq in Hin.
      discriminate. }
    split.
    + cbn [map]. now constructor.
    + intros k [<-|Hk]; [exact E|].
      specialize (Hfresh k Hk).
      rewrite lookup_insert_ne in Hfresh; [exact Hfresh|].
      intros <-. contradiction.
Qed.

Lemma insert_rows_lookup_later (before after : list row) (r : row)
    (metadata : gmap pystr post_meta) :
  ~ In (row_key r) (map row_key after) ->
  insert_rows (before ++ r :: after) metadata !! row_key r
  = Some (row_meta r).
Proof.
  intros Hlast. unfold insert_rows. rewrite foldl_app. cbn [foldl].
  fold (insert_rows before metadata).
  fold (insert_rows after
          (<[row_key r := row_meta r]> (insert_rows before metadata))).
  rewrite insert_rows_lookup_other by assumption.
  apply lookup_insert_eq.
Qed.

(** C8, as stated, at two valid rows whose [post_id] differ behind the
    dot: the loader builds one entry for the two rows, and it holds the
    fields of the second. *)
Lemma C8_rows_of_one_id_share_an_entry :
  Forall valid_row republished_rows
  /\ map (fun r => field r "post_id") republished_rows
     = [py "101.hello-world"; py "101.hello-again"]
  /\ length republished_rows = 2%nat
  /\ exists metadata : gmap pystr post_meta,
       load_rows republished_rows ∅ = (metadata, None)
       /\ size metadata = 1%nat
       /\ (title <$> metadata !! py "101") = Some (Some (py "Hello Again"))
       /\ (published <$> metadata !! py "101") = Some (Some true).
Proof.
  assert (Hvalid : Forall valid_row republished_rows)
    by (repeat constructor; eexists; vm_compute; reflexivity).
  split; [exact Hvalid|]. split; [vm_compute; reflexivity|].
  split; [reflexivity|].
  exists (insert_rows republished_rows ∅).
  split; [now apply load_rows_valid|].
  split; vm_compute; repeat split; reflexivity.
Qed.

(** C8, amended: for valid rows the loader reads every row without an
    error and builds one entry for each key, the key of a row being its
    [post_id] cut at its first dot.  The entry of a key holds the fields
    of the last row with that key, and its published flag is true exactly
    when [is_published] of that row is the string ["true"].  There are
    as many entries as rows exactly when no two rows have one key, and
    then every row has its entry. *)
Theorem C8_loader_entries `{FileSystem} (rows : list row) :
  Forall valid_row rows ->
  exists metadata : gmap pystr post_meta,
    load_rows rows ∅ = (metadata, None)
    /\ (forall w, _load_posts_metadata (Some rows) w = (Ok metadata, w))
    /\ (forall k, is_Some (metadata !! k) <-> In k (map row_key rows))
    /\ (size metadata <= length rows)%nat
    /\ (size metadata = length rows <-> List.NoDup (map row_key rows))
    /\ (forall before r after,
        rows = before ++ r :: after ->
        ~ In (row_key r) (map row_key after) ->
        exists raw_id entry,
          r !! "post_id"%string = Some raw_id
          /\ metadata !! split_first 46 raw_id = Some entry
          /\ entry = row_meta r
          /\ (published entry = Some true
              <-> r !! "is_published"%string = Some (py "true")))
    /\ (List.NoDup (map row_key rows) ->
        forall r, In r rows -> metadata !! row_key r = Some (row_meta r)).
Proof.
  intros Hvalid. exists (insert_rows rows ∅).
  split; [now apply load_rows_valid|]. split.
  { intros w. unfold _load_posts_metadata.
    rewrite load_rows_valid by assumption. reflexivity. }
  split.
  { intros k. rewrite insert_rows_keys. rewrite lookup_empty.
    split; [intros [Hk|[x Hx]]; [assumption | discriminate] | now left]. }
  split.
  { pose proof (insert_rows_size_le rows ∅) as Hle.
    rewrite map_size_empty in Hle. exact Hle. }
  split.
  { split.
    - intros Hsize. apply (insert_rows_size_full rows ∅).
      rewrite map_size_empty. exact Hsize.
    - intros Hnd.
      rewrite insert_rows_size; [rewrite map_size_empty; lia | assumption |].
      intros k _. apply lookup_empty. }
  split; [|intros Hnd r Hr; now apply insert_rows_lookup].
  intros before r after -> Hlast.
  assert (Hv : valid_row r).
  { rewrite List.Forall_forall in Hvalid. apply Hvalid.
    apply in_or_app. right. now left. }
  unfold valid_row, row_columns in Hv.
  repeat match goal with
         | H : Forall _ (_ :: _) |- _ => apply Forall_cons in H; destruct H
         end.
  destruct (r !! "post_id"%string) as [raw_id|] eqn:Eid;
    [|exfalso; eapply is_Some_None; eassumption].
  destruct (r !! "is_published"%string) as [flag|] eqn:Epub;
    [|exfalso; eapply is_Some_None; eassumption].
  exists raw_id, (row_meta r).
  split; [reflexivity|]. split.
  { replace (split_first 46 raw_id) with (row_key r)
      by (unfold row_key, field; now rewrite Eid).
    now apply insert_rows_lookup_later. }
  split; [reflexivity|].
  unfold row_meta, field. cbn [published]. rewrite Epub. cbn [default]. unfold id.
  split.
  - intros E. injection E as E. apply bool_decide_eq_true in E. now subst.
  - intros E. injection E as ->. now rewrite bool_decide_eq_true_2.
Qed.

Lemma C8_loader_entries_witness :
  exists metadata : gmap pystr post_meta,
    load_rows sample_rows ∅ = (metadata, None)
    /\ size metadata = 2%nat
    /\ (published <$> metadata !! py "101") = Some (Some true)
    /\ (published <$> metadata !! py "102") = Some (Some false).
Proof.
  destruct (@C8_loader_entries (files_fs []) sample_rows)
    as (metadata & Hload & _ & _ & _ & Hsize & _).
  - repeat constructor; eexists; vm_compute; reflexivity.
  - exists metadata. split; [exact Hload|]. split.
    + apply Hsize.
      replace (map row_key sample_rows) with [py "101"; py "102"]
        by (vm_compute; reflexivity).
      repeat constructor; cbn; intuition discriminate.
    + rewrite load_rows_valid in Hload
        by (repeat constructor; eexists; vm_compute; reflexivity).
      injection Hload as <-. split; vm_compute; reflexivity.
Defined.

(** ** The HTML sanitizer *)

Lemma node_induction (P : node -> Prop) :
  (forall s, P (Text s)) ->
  (forall s, P (Comment s)) ->
  (forall name attrs kids, Forall P kids -> P (Elem name attrs kids)) ->
  forall n, P n.
Proof.
  intros HT HC HE. fix IH 1. intros [s|s|name attrs kids].
  - apply HT.
  - apply HC.
  - apply HE. induction kids as [|k kids IHk]; constructor.
    + apply IH.
    + exact IHk.
Qed.

Lemma existsb_flat_map_false {A B : Type} (p : B -> bool) (f : A -> list B)
    (l : list A) :
  Forall (fun a => existsb p (f a) = false) l ->
  existsb p (flat_map f l) = false.
Proof.
  induction 1 as [|a l Ha _ IH]; [reflexivity|].
  cbn [flat_map]. rewrite existsb_app, Ha, IH. reflexivity.
Qed.

Lemma flat_map_singleton {A : Type} (f : A -> list A) (l : list A) :
  Forall (fun a => f a = [a]) l -> flat_map f l = l.
Proof.
  induction 1 as [|a l Ha _ IH]; [reflexivity|].
  cbn [flat_map]. now rewrite Ha, IH.
Qed.

Lemma existsb_false_Forall {A : Type} (p : A -> bool) (l : list A) :
  existsb p l = false <-> Forall (fun a => p a = false) l.
Proof.
  induction l as [|a l IH]; cbn [existsb].
  - split; [constructor | reflexivity].
  - rewrite orb_false_iff, IH. split.
    + intros [Ha Hl]. now constructor.
    + intros Hal. apply Forall_cons in Hal. exact Hal.
Qed.

Lemma Forall_modus_ponens {A : Type} (P Q : A -> Prop) (l : list A) :
  Forall (fun a => P a -> Q a) l -> Forall P l -> Forall Q l.
Proof.
  induction 1 as [|a l Ha _ IH]; intros HP; [constructor|].
  apply Forall_cons in HP. destruct HP as [HPa HPl].
  constructor; [now apply Ha | now apply IH].
Qed.

(** After the loop for [markers], no [div] with one of them is left. *)
Lemma decompose_node_none markers n :
  existsb (has_marked_div markers) (decompose_node markers n) = false.
Proof.
  induction n as [s|s|name attrs kids IH] using node_induction;
    [reflexivity | reflexivity |].
  cbn [decompose_node]. destruct (div_with_class markers name attrs) eqn:E;
    [reflexivity|].
  cbn [existsb has_marked_div]. rewrite E, orb_false_r. cbn [orb].
  now apply existsb_flat_map_false.
Qed.

Lemma decompose_all_none markers doc :
  existsb (has_marked_div markers) (decompose_all markers doc) = false.
Proof.
  apply existsb_flat_map_false, List.Forall_forall. intros n _.
  apply decompose_node_none.
Qed.

(** A tree without such a [div] is left as it is. *)
Lemma decompose_node_clean markers n :
  has_marked_div markers n = false -> decompose_node markers n = [n].
Proof.
  induction n as [s|s|name attrs kids IH] using node_induction;
    [reflexivity | reflexivity |].
  cbn [has_marked_div decompose_node]. intros Hn.
  apply orb_false_iff in Hn. destruct Hn as [Hdiv Hkids]. rewrite Hdiv.
  f_equal. f_equal. apply flat_map_singleton.
  apply existsb_false_Forall in Hkids.
  apply (Forall_modus_ponens _ _ _ IH Hkids).
Qed.

Lemma decompose_all_clean markers doc :
  existsb (has_marked_div markers) doc = false ->
  decompose_all markers doc = doc.
Proof.
  intros Hdoc. apply flat_map_singleton.
  apply existsb_false_Forall in Hdoc.
  eapply Forall_impl; [exact Hdoc|].
  intros n Hn. now apply decompose_node_clean.
Qed.

(** The loop for some markers brings in no [div] of other markers. *)
Lemma decompose_node_keeps_clean markers others n :
  has_marked_div others n = false ->
  existsb (has_marked_div others) (decompose_node markers n) = false.
Proof.
  induction n as [s|s|name attrs kids IH] using node_induction;
    [intros _; reflexivity | intros _; reflexivity |].
  cbn [has_marked_div decompose_node]. intros Hn.
  apply orb_false_iff in Hn. destruct Hn as [Hdiv Hkids].
  destruct (div_with_class markers name attrs); [reflexivity|].
  cbn [existsb has_marked_div]. rewrite Hdiv, orb_false_r. cbn [orb].
  apply existsb_flat_map_false.
  apply existsb_false_Forall in Hkids.
  apply (Forall_modus_ponens _ _ _ IH Hkids).
Qed.

Lemma decompose_all_keeps_clean markers others doc :
  existsb (has_marked_div others) doc = false ->
  existsb (has_marked_div others) (decompose_all markers doc) = false.
Proof.
  intros Hdoc. apply existsb_flat_map_false.
  apply existsb_false_Forall in Hdoc.
  eapply Forall_impl; [exact Hdoc|].
  intros n Hn. now apply decompose_node_keeps_clean.
Qed.

Lemma div_with_class_app a b name attrs :
  div_with_class (a ++ b) name attrs
  = div_with_class a name attrs || div_with_class b name attrs.
Proof.
  unfold div_with_class.
  destruct (bool_decide (name = py "div")); [|reflexivity]. cbn [andb].
  destruct (get_attr (py "class") attrs) as [v|]; [|reflexivity].
  induction (words v) as [|tok toks IH]; [reflexivity|].
  cbn [existsb]. rewrite IH, existsb_app.
  repeat match goal with |- context [existsb ?f ?l] =>
    destruct (existsb f l) end; reflexivity.
Qed.

Lemma has_marked_div_app a b n :
  has_marked_div (a ++ b) n = has_marked_div a n || has_marked_div b n.
Proof.
  induction n as [s|s|name attrs kids IH] using node_induction;
    [reflexivity | reflexivity |].
  cbn [has_marked_div]. rewrite div_with_class_app.
  assert (E : existsb (has_marked_div (a ++ b)) kids
              = existsb (has_marked_div a) kids
                || existsb (has_marked_div b) kids).
  { induction IH as [|k kids Hk _ IHk]; [reflexivity|].
    cbn [existsb]. rewrite Hk, IHk.
    repeat match goal with |- context [has_marked_div ?m ?x] =>
      destruct (has_marked_div m x) end; cbn;
      repeat match goal with |- context [existsb ?f ?l] =>
        destruct (existsb f l) end; reflexivity. }
  rewrite E.
  repeat match goal with |- context [div_with_class ?m ?x ?y] =>
    destruct (div_with_class m x y) end; cbn;
    repeat match goal with |- context [existsb ?f ?l] =>
      destruct (existsb f l) end; reflexivity.
Qed.

Lemma existsb_has_marked_div_app a b doc :
  existsb (has_marked_div (a ++ b)) doc
  = existsb (has_marked_div a) doc || existsb (has_marked_div b) doc.
Proof.
  induction doc as [|n doc IH]; [reflexivity|].
  cbn [existsb]. rewrite IH, has_marked_div_app.
  repeat match goal with |- context [has_marked_div ?m ?x] =>
    destruct (has_marked_div m x) end; cbn;
    repeat match goal with |- context [existsb ?f ?l] =>
      destruct (existsb f l) end; reflexivity.
Qed.

Lemma remove_noise_none doc :
  existsb (has_marked_div noise_markers) (remove_noise doc) = false.
Proof.
  unfold noise_markers, remove_noise.
  rewrite !existsb_has_marked_div_app.
  rewrite decompose_all_none.
  rewrite (decompose_all_keeps_clean noise_share noise_poll)
    by apply decompose_all_none.
  rewrite (decompose_all_keeps_clean noise_share noise_subscription)
    by (apply decompose_all_keeps_clean, decompose_all_none).
  reflexivity.
Qed.

Lemma remove_noise_clean doc :
  existsb (has_marked_div noise_markers) doc = false ->
  remove_noise doc = doc.
Proof.
  unfold noise_markers, remove_noise.
  rewrite !existsb_has_marked_div_app, !orb_false_iff.
  intros (Hsub & Hpoll & Hshare).
  now rewrite (decompose_all_clean noise_subscription),
    (decompose_all_clean noise_poll), (decompose_all_clean noise_share).
Qed.

(** What [re.sub(C+, h, s)] writes is collapsed, when [h] is of the class;
    inside a run the next character written is not of the class. *)
Lemma re_sub_runs_from_collapsed cls h in_run s :
  cls h = true ->
  collapsed cls h (re_sub_runs_from cls [h] in_run s) = true
  /\ (in_run = true ->
      match re_sub_runs_from cls [h] in_run s with
      | c :: _ => cls c = false
      | [] => True
      end).
Proof.
  intros Hh. revert in_run.
  induction s as [|c t IH]; intros in_run; cbn [re_sub_runs_from]; [easy|].
  destruct (cls c) eqn:E.
  - destruct (IH true) as [Hcol Hhd]. specialize (Hhd eq_refl).
    destruct in_run; cbn [app].
    + split; [exact Hcol | intros _; exact Hhd].
    + split; [|discriminate].
      cbn [collapsed]. rewrite Hh, N.eqb_refl, Hcol.
      destruct (re_sub_runs_from cls [h] true t) as [|d u]; [reflexivity|].
      now rewrite Hhd.
  - destruct (IH false) as [Hcol _].
    split; [|intros _; exact E].
    cbn [collapsed]. now rewrite E, Hcol.
Qed.

Lemma re_sub_runs_from_head cls h s :
  match s with
  | c :: _ => cls c = false
  | [] => True
  end ->
  re_sub_runs_from cls [h] true s = re_sub_runs_from cls [h] false s.
Proof.
  destruct s as [|c t]; [reflexivity|].
  intros Hc. cbn [re_sub_runs_from]. now rewrite Hc.
Qed.

(** A collapsed string is left as it is. *)
Lemma re_sub_runs_collapsed cls h s :
  collapsed cls h s = true -> re_sub_runs cls [h] s = s.
Proof.
  unfold re_sub_runs. induction s as [|c t IH]; [reflexivity|].
  cbn [collapsed re_sub_runs_from]. intros Hs.
  apply andb_true_iff in Hs. destruct Hs as [Hc Ht].
  destruct (cls c) eqn:E.
  - apply andb_true_iff in Hc. destruct Hc as [Hch Hnext].
    apply N.eqb_eq in Hch. subst c. cbn [app]. f_equal.
    rewrite re_sub_runs_from_head; [now apply IH|].
    destruct t as [|b u]; [exact I|]. now apply negb_true_iff.
  - f_equal. now apply IH.
Qed.

Lemma re_sub_runs_idempotent cls h s :
  cls h = true ->
  re_sub_runs cls [h] (re_sub_runs cls [h] s) = re_sub_runs cls [h] s.
Proof.
  intros Hh. apply re_sub_runs_collapsed.
  now apply re_sub_runs_from_collapsed.
Qed.

(** C2, as stated, at the document [a<br><br>b]: the first pass writes the
    paragraph break of two newlines, and the second pass, run on that
    output, collapses the two newlines into one space. *)
Lemma C2_second_pass_changes_output :
  @_clean_html_content reference_parser double_break_html
  = py "a" ++ nl ++ nl ++ py "b"
  /\ @_clean_html_content reference_parser
       (@_clean_html_content reference_parser double_break_html)
     = py "a b"
  /\ bool_decide
       (@_clean_html_content reference_parser
          (@_clean_html_content reference_parser double_break_html)
        = @_clean_html_content reference_parser double_break_html)
     = false.
Proof. repeat split; vm_compute; reflexivity. Qed.

(** One pass can also leave a noise element behind: the text of an [alt]
    attribute is written into the new markup as it is, and here it opens a
    poll embed. *)
Example residual_noise_after_one_pass :
  existsb (has_marked_div noise_markers)
    (@clean_tree reference_parser (@bs_parse reference_parser injected_alt_html))
  = true
  /\ @_clean_html_content reference_parser injected_alt_html
     = py "<img alt=" ++ [dq; dq] ++ py " src=" ++ [dq] ++ py "a.png" ++ [dq]
         ++ py "/><div class=" ++ [dq] ++ py "poll-embed" ++ [dq]
         ++ py ">x</div>" ++ [dq] ++ py "&gt;".
Proof. split; vm_compute; reflexivity. Qed.

(** C2, amended: the removal of the noise elements leaves no element with
    a noise marker in the tree and, run again on its own result, changes
    nothing; the collapse of whitespace runs, run again on its own result,
    changes nothing either. *)
Theorem C2_noise_removal_idempotent (doc : list node) (text : pystr) :
  existsb (has_marked_div noise_markers) (remove_noise doc) = false
  /\ remove_noise (remove_noise doc) = remove_noise doc
  /\ re_sub_runs is_space [space] (re_sub_runs is_space [space] text)
     = re_sub_runs is_space [space] text.
Proof.
  split; [apply remove_noise_none|]. split.
  - apply remove_noise_clean, remove_noise_none.
  - now apply re_sub_runs_idempotent.
Qed.

(** ** Image containers *)

Section Containers.
Context `{HtmlParser}.

Lemma find_in_node_elem tag name attrs kids :
  find_in_node tag (Elem name attrs kids)
  = if bool_decide (name = tag) then Some (Elem name attrs kids)
    else find_tag tag kids.
Proof.
  cbn [find_in_node]. destruct (bool_decide (name = tag)); [reflexivity|].
  induction kids as [|k kids IH]; [reflexivity|].
  cbn [find_tag]. destruct (find_in_node tag k); [reflexivity | exact IH].
Qed.

Lemma find_tag_none tag l :
  find_tag tag l = None <-> Forall (fun n => find_in_node tag n = None) l.
Proof.
  induction l as [|k l IH]; cbn [find_tag].
  - split; [constructor | reflexivity].
  - destruct (find_in_node tag k) eqn:E.
    + split; [discriminate|]. intros Hl. apply Forall_cons in Hl.
      destruct Hl as [Hk _]. congruence.
    + rewrite IH. split.
      * intros Hl. now constructor.
      * intros Hl. apply Forall_cons in Hl. tauto.
Qed.


(** The loop over the containers leaves a tree without an image as it
    is. *)
Lemma simplify_container_no_image n :
  find_in_node (py "img") n = None -> simplify_container n = [n].
Proof.
  induction n as [s|s|name attrs kids IH] using node_induction;
    [reflexivity | reflexivity |].
  rewrite find_in_node_elem.
  destruct (bool_decide (name = py "img")); [discriminate|].
  intros Hkids. cbn [simplify_container]. rewrite Hkids.
  assert (E : flat_map simplify_container kids = kids).
  { apply flat_map_singleton. apply find_tag_none in Hkids.
    apply (Forall_modus_ponens _ _ _ IH Hkids). }
  rewrite E. now destruct (div_with_class image_container name attrs).
Qed.

Lemma simplify_containers_no_image doc :
  find_tag (py "img") doc = None -> simplify_containers doc = doc.
Proof.
  intros Hdoc. apply flat_map_singleton. apply find_tag_none in Hdoc.
  eapply Forall_impl; [exact Hdoc|].
  intros n Hn. now apply simplify_container_no_image.
Qed.






(** An element that is neither noise nor an image container stays, and
    the sanitizer goes on below it. *)
Lemma remove_noise_elem name attrs kids :
  div_with_class noise_markers name attrs = false ->
  remove_noise [Elem name attrs kids] = [Elem name attrs (remove_noise kids)].
Proof.
  unfold noise_markers. rewrite !div_with_class_app, !orb_false_iff.
  intros (Hsub & Hpoll & Hshare).
  unfold remove_noise, decompose_all.
  cbn [flat_map decompose_node]. rewrite Hsub.
  cbn [flat_map decompose_node app]. rewrite Hpoll.
  cbn [flat_map decompose_node app]. rewrite Hshare.
  cbn [app]. now rewrite ?app_nil_r.
Qed.

End Containers.




(** ** The file converter *)

Section ConverterFacts.
Context `{UnicodeDB} `{HtmlParser} `{Html2Text} `{IsoParser} `{FileSystem}.
Variable posts_metadata : gmap pystr post_meta.

(** [convert_file] returns for every file and every world, with one of
    the four outcomes; it prints one line. *)
Lemma convert_file_outcome name w :
  convert_file posts_metadata name w
  = (is_converted (outcome_of posts_metadata name),
     apply_outcome posts_metadata name w).
Proof.
  unfold convert_file, convert_file_try, apply_outcome, report_of, outcome_of,
    bind, lift, ret, print, write_text.
  fold (metadata_of posts_metadata name).
  destruct (read_text name) as [html|e]; [|reflexivity].
  destruct (negb (default true (published (metadata_of posts_metadata name))));
    [reflexivity|].
  destruct (h2t_handle (_clean_html_content html)) as [markdown|e];
    [|reflexivity].
  fold (output_filename_of posts_metadata name).
  destruct (write_error (output_filename_of posts_metadata name));
    reflexivity.
Qed.


Lemma convert_file_true name w :
  fst (convert_file posts_metadata name w) = true ->
  exists output_filename content,
    outcome_of posts_metadata name = Converted output_filename content.
Proof.
  rewrite convert_file_outcome. cbn [fst].
  destruct (outcome_of posts_metadata name); [eauto | discriminate..].
Qed.

(** The loop: the count grows by the files converted, and one line is
    printed for each file, in the order of the list. *)
Lemma convert_loop_outcomes files n w :
  fst (convert_loop posts_metadata files n w)
  = (n + length (List.filter
                   (fun f => is_converted (outcome_of posts_metadata f))
                   files))%nat
  /\ console (snd (convert_loop posts_metadata files n w))
     = console w ++ map (report_of posts_metadata) files.
Proof.
  revert n w. induction files as [|f files IH]; intros n w.
  - cbn. split; [lia | now rewrite app_nil_r].
  - cbn [convert_loop List.filter map]. rewrite convert_file_outcome.
    destruct (IH (if is_converted (outcome_of posts_metadata f)
                  then S n else n)
                 (apply_outcome posts_metadata f w)) as [IHn IHc].
    rewrite IHn, IHc. unfold apply_outcome. cbn [console].
    rewrite <- app_assoc. split; [|reflexivity].
    destruct (is_converted (outcome_of posts_metadata f)); cbn [length]; lia.
Qed.

End ConverterFacts.


Section BatchFacts.
Context `{UnicodeDB} `{HtmlParser} `{Html2Text} `{IsoParser} `{FileSystem}.
Variable posts_metadata : gmap pystr post_meta.

Lemma convert_all_files files w :
  files <> [] ->
  convert_all posts_metadata (Some files) w
  = let w1 := print_line (py "Found " ++ str_nat (length files)
                            ++ py " HTML files to convert") w in
    let r := convert_loop posts_metadata files 0 w1 in
    print_line (py "Markdown files saved to: " ++ output_dir_abspath)
      (print_line (summary_line (fst r) (length files)) (snd r)).
Proof.
  intros Hne. destruct files as [|f files]; [contradiction|].
  unfold convert_all.
  destruct (convert_loop posts_metadata (f :: files) 0 _) as [n w'].
  reflexivity.
Qed.
End BatchFacts.

(** C1, as stated, at the file [123.html] of the sample export, which has
    no row in [posts.csv]: the file is converted and its title line is
    [title: "Untitled"], but the output file is [123_123.md], named after
    the stem of the input file, and no file [123_Untitled.md] is written. *)
Lemma C1_filename_is_not_from_untitled :
  let w := snd (@convert_file latin1_db reference_parser echo_renderer
                  reference_iso sample_fs sample_metadata (py "123.html")
                  empty_world) in
  sample_metadata !! py "123" = None
  /\ outputs w !! py "123_Untitled.md" = None
  /\ outputs w !! py "123_123.md"
     = Some (@_create_frontmatter reference_iso (py "123") no_meta
               ++ py "<p>hi</p>")
  /\ console w = [py "Converted: 123.html -> 123_123.md"].
Proof. repeat split; vm_compute; reflexivity. Qed.

(** C1, amended: a file whose post id has no metadata record is still
    converted when it can be read, rendered and written (the publish check
    reads missing metadata as published); its frontmatter has the title
    line [title: "Untitled"]; and the output file is
    [<post_id>_<sanitized-title>.md] where the sanitized title comes from
    the stem of the input file name. *)
Theorem C1_missing_metadata_converted
    `{UnicodeDB} `{HtmlParser} `{Html2Text} `{IsoParser} `{FileSystem}
    (posts_metadata : gmap pystr post_meta) (name html markdown : pystr)
    (w : world) :
  posts_metadata !! _extract_post_id name = None ->
  read_text name = Ok html ->
  h2t_handle (_clean_html_content html) = Ok markdown ->
  let output_filename :=
    _extract_post_id name ++ py "_" ++ safe_title_of (stem name) ++ py ".md" in
  write_error output_filename = None ->
  exists rest,
    let content :=
      py "---" ++ nl ++ py "title: " ++ [dq] ++ py "Untitled" ++ [dq] ++ nl
        ++ rest in
    convert_file posts_metadata name w
    = (true,
       World (<[output_filename := content]> (outputs w))
             (console w ++ [converted_line name output_filename]))
    /\ content
       = _create_frontmatter (_extract_post_id name) no_meta
           ++ strip (sub_blank_lines markdown).
Proof.
  intros Hnone Hread Hrender output_filename Hwrite.
  assert (Hmeta : metadata_of posts_metadata name = no_meta)
    by (unfold metadata_of; now rewrite Hnone).
  assert (Hout : output_filename_of posts_metadata name = output_filename)
    by (unfold output_filename_of; now rewrite Hmeta).
  destruct (create_frontmatter_title (_extract_post_id name) no_meta)
    as [rest Hrest].
  exists (rest ++ strip (sub_blank_lines markdown)).
  cbv zeta.
  assert (Hcontent :
    py "---" ++ nl ++ py "title: " ++ [dq] ++ py "Untitled" ++ [dq] ++ nl
      ++ rest ++ strip (sub_blank_lines markdown)
    = _create_frontmatter (_extract_post_id name) no_meta
        ++ strip (sub_blank_lines markdown)).
  { rewrite Hrest. unfold title_line. cbn [no_meta title default].
    unfold id. now rewrite <- ?app_assoc. }
  split; [|exact Hcontent].
  rewrite convert_file_outcome.
  unfold apply_outcome, report_of, outcome_of.
  rewrite Hread, Hmeta. cbn [no_meta published default negb].
  rewrite Hrender, Hout, Hwrite. cbn [is_converted].
  unfold full_content_of. rewrite Hmeta, Hcontent. reflexivity.
Qed.

Lemma C1_missing_metadata_converted_witness :
  exists content,
    @convert_file latin1_db reference_parser echo_renderer reference_iso
      sample_fs sample_metadata (py "123.html") empty_world
    = (true,
       World (<[py "123_123.md" := content]> ∅)
             [converted_line (py "123.html") (py "123_123.md")]).
Proof.
  destruct (@C1_missing_metadata_converted latin1_db reference_parser
              echo_renderer reference_iso sample_fs sample_metadata
              (py "123.html") (py "<p>hi</p>") (py "<p>hi</p>") empty_world)
    as [rest [Hrun _]];
    [vm_compute; reflexivity | vm_compute; reflexivity
     | vm_compute; reflexivity | vm_compute; reflexivity |].
  eexists. exact Hrun.
Defined.





(** * Further properties of the code *)

(** ** Post ids and file names *)

Lemma take_while_app_stop p a c b :
  Forall (fun x => p x = true) a -> p c = false ->
  take_while p (a ++ c :: b) = a.
Proof.
  intros Ha Hc. induction Ha as [|x a Hx _ IH]; cbn [app take_while].
  - now rewrite Hc.
  - now rewrite Hx, IH.
Qed.

Lemma take_while_all p s :
  Forall (fun x => p x = true) s -> take_while p s = s.
Proof.
  induction 1 as [|x s Hx _ IH]; cbn [take_while]; [reflexivity|].
  now rewrite Hx, IH.
Qed.

Lemma take_while_holds p s : Forall (fun x => p x = true) (take_while p s).
Proof.
  induction s as [|c t IH]; cbn [take_while]; [constructor|].
  destruct (p c) eqn:E; now constructor.
Qed.

Lemma not_dot_Forall (s : pystr) :
  ~ In 46 s -> Forall (fun x => negb (x =? 46) = true) s.
Proof.
  intros Hs. apply List.Forall_forall. intros x Hx.
  apply negb_true_iff, N.eqb_neq. intros ->. contradiction.
Qed.

(** The post id of [<id>.<rest>] is [<id>], whatever follows the first
    dot: the file [<id>.<slug>.html] and the row whose [post_id] is
    [<id>.<slug>] meet under the key [<id>].  A post id holds no dot, and
    taking the post id of a post id changes nothing. *)
Theorem extract_post_id_prefix (id rest name : pystr) :
  ~ In 46 id ->
  _extract_post_id (id ++ py "." ++ rest) = id
  /\ _extract_post_id id = id
  /\ ~ In 46 (_extract_post_id name)
  /\ _extract_post_id (_extract_post_id name) = _extract_post_id name.
Proof.
  intros Hid. unfold _extract_post_id, split_first.
  split; [|split; [|split]].
  - apply take_while_app_stop; [now apply not_dot_Forall | reflexivity].
  - now apply take_while_all, not_dot_Forall.
  - intros Hin.
    pose proof (take_while_holds (fun c => negb (c =? 46)) name) as Hall.
    rewrite List.Forall_forall in Hall. now apply Hall in Hin.
  - apply take_while_all, take_while_holds.
Qed.

Lemma extract_post_id_prefix_witness :
  _extract_post_id (py "101" ++ py "." ++ py "hello-world.html") = py "101".
Proof.
  apply (extract_post_id_prefix (py "101") (py "hello-world.html") []).
  cbn. intuition discriminate.
Defined.

(** The stem of a file that [glob("*.html")] lists is the name without
    [.html], unless nothing stands before the suffix. *)
Theorem stem_of_html_file (base : pystr) :
  base <> [] ->
  stem (base ++ py ".html") = base.
Proof.
  intros Hbase. unfold stem.
  assert (Hdot : contains 46 (base ++ py ".html") = true).
  { unfold contains. rewrite existsb_app. apply orb_true_iff. now right. }
  rewrite Hdot, rev_app_distr.
  change (rev (py ".html")) with (py "lmth" ++ 46 :: []).
  rewrite <- app_assoc. change ([46] ++ rev base) with (46 :: rev base).
  rewrite take_while_app_stop by (repeat constructor).
  rewrite length_app.
  change (length (py ".html")) with 5%nat.
  change (length (py "lmth")) with 4%nat.
  destruct base as [|c base]; [contradiction|].
  cbn [length].
  replace (S (length base) + 5 - 4 - 1)%nat with (S (length base)) by lia.
  replace (Nat.ltb 0 (S (length base))) with true
    by (symmetry; apply Nat.ltb_lt; lia).
  replace (Nat.ltb (S (length base)) (S (length base) + 5 - 1)) with true
    by (symmetry; apply Nat.ltb_lt; lia).
  cbn [andb]. change (S (length base)) with (length (c :: base)).
  now rewrite take_app_length.
Qed.

Lemma stem_of_html_file_witness :
  stem (py "123.my-post" ++ py ".html") = py "123.my-post".
Proof. apply stem_of_html_file. discriminate. Defined.

(** ** The loader on a file whose header lacks a column *)

Lemma load_row_invalid (metadata : gmap pystr post_meta) (r : row) :
  ~ valid_row r ->
  exists column,
    In column row_columns /\ r !! column = None
    /\ load_row metadata r = Raise ([39] ++ py column ++ [39]).
Proof.
  intros Hr. unfold load_row, getitem, row_columns.
  destruct (r !! "post_id"%string) eqn:E1;
    [|exists "post_id"%string; cbn; intuition].
  destruct (r !! "title"%string) eqn:E2;
    [|exists "title"%string; cbn; intuition].
  destruct (r !! "subtitle"%string) eqn:E3;
    [|exists "subtitle"%string; cbn; intuition].
  destruct (r !! "post_date"%string) eqn:E4;
    [|exists "post_date"%string; cbn; intuition].
  destruct (r !! "type"%string) eqn:E5;
    [|exists "type"%string; cbn; intuition].
  destruct (r !! "is_published"%string) eqn:E6;
    [|exists "is_published"%string; cbn; intuition].
  exfalso. apply Hr. unfold valid_row, row_columns.
  repeat constructor; eauto.
Qed.

(** The rows of a file have the columns of its header.  When the header
    lacks one of the six columns the loader reads, the first row raises
    [KeyError] inside the [try] around the loop: nothing is loaded,
    whatever rows follow, and one error line that names a missing column
    is printed.  With the empty table no file is held back as
    unpublished. *)
Theorem loader_header_lacks_column
    `{UnicodeDB} `{HtmlParser} `{Html2Text} `{IsoParser} `{FileSystem}
    (r : row) (rest : list row) (w : world) :
  ~ valid_row r ->
  exists column,
    In column row_columns /\ r !! column = None
    /\ load_rows (r :: rest) ∅ = (∅, Some ([39] ++ py column ++ [39]))
    /\ _load_posts_metadata (Some (r :: rest)) w
       = (Ok ∅,
          World (outputs w)
                (console w ++ [py "Error reading posts.csv: '" ++ py column
                                 ++ py "'"]))
    /\ (forall name,
          outcome_of (fst (load_rows (r :: rest) ∅)) name
          <> SkippedUnpublished).
Proof.
  intros Hr.
  destruct (load_row_invalid ∅ r Hr) as (column & Hin & Hnone & Hraise).
  assert (Hload : load_rows (r :: rest) ∅
                  = (∅, Some ([39] ++ py column ++ [39]))).
  { cbn [load_rows]. now rewrite Hraise. }
  exists column. split; [exact Hin|]. split; [exact Hnone|].
  split; [exact Hload|]. split.
  - unfold _load_posts_metadata. rewrite Hload. reflexivity.
  - intros name. rewrite Hload. cbn [fst].
    unfold outcome_of, metadata_of. rewrite lookup_empty. cbn.
    destruct (read_text name); [|discriminate].
    destruct (h2t_handle _); [|discriminate].
    destruct (write_error _); discriminate.
Qed.

(** When several valid rows have one post id, the entry is the one of the
    last of them. *)
Theorem loader_last_row_wins (before after : list row) (r : row) :
  Forall valid_row (before ++ r :: after) ->
  ~ In (row_key r) (map row_key after) ->
  exists metadata,
    load_rows (before ++ r :: after) ∅ = (metadata, None)
    /\ metadata !! row_key r = Some (row_meta r).
Proof.
  intros Hvalid Hlast. exists (insert_rows (before ++ r :: after) ∅).
  split; [now apply load_rows_valid|].
  unfold insert_rows. rewrite foldl_app. cbn [foldl].
  fold (insert_rows before ∅).
  fold (insert_rows after (<[row_key r := row_meta r]> (insert_rows before ∅))).
  rewrite insert_rows_lookup_other by assumption.
  apply lookup_insert_eq.
Qed.

Lemma loader_header_lacks_column_witness :
  load_rows rows_without_title ∅ = (∅, Some (py "'title'"))
  /\ @outcome_of latin1_db reference_parser echo_renderer reference_iso
       sample_fs (fst (load_rows rows_without_title ∅))
       (py "102.draft.html")
     <> SkippedUnpublished.
Proof.
  destruct (@loader_header_lacks_column latin1_db reference_parser
              echo_renderer reference_iso sample_fs
              (list_to_map [("post_id", py "101.hello-world");
                            ("subtitle", []);
                            ("post_date", py "2024-03-01T12:00:00Z");
                            ("type", py "newsletter");
                            ("is_published", py "true")]%string)
              (tl rows_without_title) empty_world)
    as (column & _ & _ & Hload & _ & Hskip).
  - intros Hv. unfold valid_row, row_columns in Hv.
    apply Forall_cons in Hv. destruct Hv as [_ Hv].
    apply Forall_cons in Hv. destruct Hv as [[v Hv] _].
    vm_compute in Hv. discriminate.
  - split; [|apply Hskip].
    change (load_rows rows_without_title ∅
            = (∅, Some (py "'title'"))).
    reflexivity.
Defined.

Lemma loader_last_row_wins_witness :
  exists metadata,
    load_rows republished_rows ∅ = (metadata, None)
    /\ (title <$> metadata !! py "101") = Some (Some (py "Hello Again")).
Proof.
  destruct (loader_last_row_wins
              [make_row "101.hello-world" "Hello World" ""
                 "2024-03-01T12:00:00Z" "newsletter" "false"]
              []
              (make_row "101.hello-again" "Hello Again" ""
                 "2024-04-01T12:00:00Z" "newsletter" "true"))
    as (metadata & Hload & Hentry).
  - repeat constructor; eexists; vm_compute; reflexivity.
  - intros [].
  - exists metadata. split; [exact Hload|].
    change (row_key _) with (py "101") in Hentry. now rewrite Hentry.
Defined.

(** ** What the sanitizer leaves alone *)

Lemma div_with_class_other_tag markers name attrs :
  name <> py "div" -> div_with_class markers name attrs = false.
Proof.
  intros Hname. unfold div_with_class.
  now rewrite bool_decide_eq_false_2.
Qed.

Lemma div_with_class_no_class markers name attrs :
  get_attr (py "class") attrs = None ->
  div_with_class markers name attrs = false.
Proof.
  intros Hclass. unfold div_with_class. rewrite Hclass. apply andb_false_r.
Qed.

(** Only a [div] with a class attribute can be removed as noise: an
    element of another tag stays even when its class is a noise marker,
    and so does an element without a class attribute; text and comments
    stay as well.  The removal goes on below an element that stays. *)
Theorem remove_noise_keeps_other_elements
    (name : pystr) (attrs : list (pystr * pystr)) (kids : list node)
    (s : pystr) :
  name <> py "div" \/ get_attr (py "class") attrs = None ->
  remove_noise [Elem name attrs kids] = [Elem name attrs (remove_noise kids)]
  /\ remove_noise [Text s] = [Text s]
  /\ remove_noise [Comment s] = [Comment s].
Proof.
  intros Hkeep. split; [|split; reflexivity].
  apply remove_noise_elem.
  destruct Hkeep; [now apply div_with_class_other_tag
                  | now apply div_with_class_no_class].
Qed.

Lemma remove_noise_keeps_other_elements_witness :
  remove_noise [marked_span] = [marked_span].
Proof.
  apply (remove_noise_keeps_other_elements (py "span")
           [(py "class", py "poll-embed")] [Text (py "x")] []).
  left. discriminate.
Defined.

(** A document without noise elements and without images goes through the
    four loops unchanged, whatever the parser is: what the sanitizer
    returns for it is its parse, printed, with the whitespace runs and the
    double line breaks rewritten. *)
Theorem clean_html_without_noise_and_images `{HtmlParser} (html : pystr) :
  existsb (has_marked_div noise_markers) (bs_parse html) = false ->
  find_tag (py "img") (bs_parse html) = None ->
  clean_tree (bs_parse html) = bs_parse html
  /\ _clean_html_content html
     = sub_br_br (re_sub_runs is_space [space] (str_soup (bs_parse html))).
Proof.
  intros Hnoise Himg.
  assert (E : clean_tree (bs_parse html) = bs_parse html).
  { unfold clean_tree. rewrite remove_noise_clean by assumption.
    now apply simplify_containers_no_image. }
  split; [exact E|]. unfold _clean_html_content. now rewrite E.
Qed.

Lemma clean_html_without_noise_and_images_witness :
  @_clean_html_content reference_parser (py "<p>one  <b>two</b></p>")
  = py "<p>one <b>two</b></p>".
Proof.
  destruct (@clean_html_without_noise_and_images reference_parser
              (py "<p>one  <b>two</b></p>")) as [_ E];
    [vm_compute; reflexivity | vm_compute; reflexivity |].
  rewrite E. vm_compute. reflexivity.
Defined.

(** ** The whitespace of the sanitized text *)

Lemma sub_br_br_fuel_chars (P : N -> Prop) fuel s :
  P 10 -> Forall P s -> Forall P (sub_br_br_fuel fuel s).
Proof.
  intros Hnl. revert s.
  assert (Hdrop : forall p t, Forall P t -> Forall P (drop_while p t)).
  { intros p t Ht. now apply Forall_drop_while. }
  assert (Hbr : forall t rest, Forall P t -> match_br t = Some rest ->
                               Forall P rest).
  { intros t rest Ht. unfold match_br.
    destruct t as [|a [|b [|c t]]]; try discriminate.
    destruct ((a =? 60) && (b =? 98) && (c =? 114)); [|discriminate].
    do 3 (apply Forall_cons in Ht; destruct Ht as [_ Ht]).
    specialize (Hdrop is_space t Ht).
    destruct (drop_while is_space t) as [|d u]; [discriminate|].
    apply Forall_cons in Hdrop. destruct Hdrop as [_ Hu].
    destruct (d =? 47).
    - destruct u as [|d' u']; [discriminate|].
      destruct (d' =? 62); [|discriminate].
      intros E; injection E as <-.
      apply Forall_cons in Hu. tauto.
    - destruct (d =? 62); [|discriminate].
      intros E; injection E as <-. exact Hu. }
  induction fuel as [|fuel IH]; intros s Hs; cbn [sub_br_br_fuel];
    [exact Hs|].
  destruct s as [|c t]; [constructor|].
  destruct (match_br_br (c :: t)) as [rest|] eqn:E.
  - unfold match_br_br in E.
    destruct (match_br (c :: t)) as [t1|] eqn:E1; [|discriminate].
    apply (Hbr _ _ Hs) in E1.
    apply (Hbr _ _ (Hdrop is_space _ E1)) in E.
    unfold nl. cbn [app]. constructor; [exact Hnl|].
    constructor; [exact Hnl|]. now apply IH.
  - apply Forall_cons in Hs. destruct Hs as [Hc Ht].
    constructor; [exact Hc | now apply IH].
Qed.

(** Whatever the document and the parser: the only whitespace characters
    in the text that the sanitizer returns are the space and the newline;
    tabs, carriage returns and the other Unicode spaces are gone. *)
Theorem clean_html_whitespace `{HtmlParser} (html : pystr) :
  Forall (fun c => is_space c = true -> c = space \/ c = 10)
         (_clean_html_content html).
Proof.
  unfold _clean_html_content, sub_br_br, re_sub_runs.
  apply sub_br_br_fuel_chars; [now right|].
  apply re_sub_runs_from_chars.
  - constructor; [now left | constructor].
  - apply List.Forall_forall. intros c _ Hc Hs. congruence.
Qed.

(** ** Image containers that hold an image *)



(** ** The output directory *)

Lemma write_all_lookup (writes : list (pystr * pystr))
    (dir : gmap pystr pystr) (name : pystr) :
  write_all writes dir !! name
  = match last_write name writes with
    | Some content => Some content
    | None => dir !! name
    end.
Proof.
  unfold write_all, last_write.
  induction writes as [|[k v] writes IH] using rev_ind; [reflexivity|].
  rewrite !foldl_app. cbn [foldl fst snd].
  case_bool_decide as Hk.
  - subst k. apply lookup_insert_eq.
  - rewrite lookup_insert_ne by assumption. exact IH.
Qed.

Lemma last_write_app name a b :
  last_write name (a ++ b)
  = match last_write name b with
    | Some content => Some content
    | None => last_write name a
    end.
Proof.
  unfold last_write.
  induction b as [|[k v] b IH] using rev_ind.
  - now rewrite app_nil_r.
  - rewrite app_assoc, !foldl_app. cbn [foldl fst snd].
    rewrite foldl_app in IH.
    destruct (bool_decide (k = name)); [reflexivity | exact IH].
Qed.

Lemma last_write_none name writes :
  ~ In name (map fst writes) -> last_write name writes = None.
Proof.
  unfold last_write.
  induction writes as [|[k v] writes IH] using rev_ind; [reflexivity|].
  rewrite map_app, in_app_iff. cbn [map fst In]. intros Hnot.
  rewrite foldl_app. cbn [foldl fst snd].
  case_bool_decide as Hk; [exfalso; apply Hnot; right; now left|].
  apply IH. tauto.
Qed.

Section OutputFacts.
Context `{UnicodeDB} `{HtmlParser} `{Html2Text} `{IsoParser} `{FileSystem}.
Variable posts_metadata : gmap pystr post_meta.

Lemma writes_of_app a b :
  writes_of posts_metadata (a ++ b)
  = writes_of posts_metadata a ++ writes_of posts_metadata b.
Proof. apply flat_map_app. Qed.

Lemma convert_loop_outputs files n w :
  outputs (snd (convert_loop posts_metadata files n w))
  = write_all (writes_of posts_metadata files) (outputs w).
Proof.
  revert n w. induction files as [|f files IH]; intros n w; [reflexivity|].
  cbn [convert_loop]. rewrite convert_file_outcome, IH.
  unfold apply_outcome, writes_of. cbn [outputs flat_map].
  fold (writes_of posts_metadata files).
  destruct (outcome_of posts_metadata f); reflexivity.
Qed.

Lemma convert_all_outputs listing w :
  outputs (convert_all posts_metadata listing w)
  = write_all (writes_of posts_metadata (default [] listing)) (outputs w).
Proof.
  destruct listing as [[|f files]|]; [reflexivity | | reflexivity].
  rewrite convert_all_files by discriminate. cbv zeta.
  unfold print_line at 1 2. cbn [outputs].
  now rewrite convert_loop_outputs.
Qed.
End OutputFacts.


(** At the end of a batch a name of the output directory holds what the
    last converted file of that name wrote: a later post with the same id
    and title overwrites an earlier one, without a warning, while both are
    counted.  A name that no file wrote holds what it held before. *)
Theorem batch_last_writer_wins
    `{UnicodeDB} `{HtmlParser} `{Html2Text} `{IsoParser} `{FileSystem}
    (posts_metadata : gmap pystr post_meta) (before after : list pystr)
    (f output_filename content : pystr) (w : world) :
  outcome_of posts_metadata f = Converted output_filename content ->
  ~ In output_filename (map fst (writes_of posts_metadata after)) ->
  let w' := convert_all posts_metadata (Some (before ++ f :: after)) w in
  outputs w' !! output_filename = Some content
  /\ (forall k,
        ~ In k (map fst (writes_of posts_metadata (before ++ f :: after))) ->
        outputs w' !! k = outputs w !! k).
Proof.
  intros Hf Hlast w'. subst w'. rewrite convert_all_outputs. cbn [default].
  unfold id. split.
  - rewrite write_all_lookup.
    change (f :: after) with ([f] ++ after).
    rewrite !writes_of_app, !last_write_app.
    rewrite (last_write_none _ _ Hlast).
    unfold writes_of at 1. cbn [flat_map]. rewrite Hf.
    unfold last_write. cbn [app foldl fst snd].
    now rewrite bool_decide_eq_true_2.
  - intros k Hk. rewrite write_all_lookup. now rewrite last_write_none.
Qed.

(** Running the batch a second time leaves the output directory as the
    first run left it. *)
Theorem batch_rerun_same_outputs
    `{UnicodeDB} `{HtmlParser} `{Html2Text} `{IsoParser} `{FileSystem}
    (posts_metadata : gmap pystr post_meta) (listing : option (list pystr))
    (w : world) :
  outputs (convert_all posts_metadata listing
             (convert_all posts_metadata listing w))
  = outputs (convert_all posts_metadata listing w).
Proof.
  rewrite !convert_all_outputs. apply map_eq. intros k.
  rewrite !write_all_lookup.
  now destruct (last_write k (writes_of posts_metadata (default [] listing))).
Qed.

Lemma batch_last_writer_wins_witness :
  let w := @convert_all latin1_db reference_parser echo_renderer
             reference_iso collision_fs sample_metadata
             (Some [py "101.first.html"; py "101.second.html"]) empty_world in
  outputs w !! py "101_Hello-World.md"
  = Some (@_create_frontmatter reference_iso (py "101")
            (default no_meta (sample_metadata !! py "101"))
          ++ py "<p>two</p>")
  /\ size (outputs w) = 1%nat.
Proof.
  split.
  - apply (@batch_last_writer_wins latin1_db reference_parser echo_renderer
             reference_iso collision_fs sample_metadata
             [py "101.first.html"] [] (py "101.second.html")
             (py "101_Hello-World.md")).
    + vm_compute. reflexivity.
    + intros [].
  - vm_compute. reflexivity.
Defined.

(** ** The count of the batch *)




(** The batch prints one line when the posts directory is missing or
    holds no HTML file, and three lines more than there are files
    otherwise: the announcement, one line for each file, the summary and
    the place of the output.  Without a file to convert the output
    directory is left as it was. *)
Theorem convert_all_lines
    `{UnicodeDB} `{HtmlParser} `{Html2Text} `{IsoParser} `{FileSystem}
    (posts_metadata : gmap pystr post_meta) (listing : option (list pystr))
    (w : world) :
  length (console (convert_all posts_metadata listing w))
  = (length (console w)
     + match listing with
       | None | Some [] => 1
       | Some files => length files + 3
       end)%nat
  /\ (listing = None \/ listing = Some [] ->
      outputs (convert_all posts_metadata listing w) = outputs w).
Proof.
  split.
  - destruct listing as [[|f files]|].
    + cbn. rewrite length_app. reflexivity.
    + rewrite convert_all_files by discriminate. cbv zeta.
      unfold print_line at 1 2. cbn [console].
      rewrite (proj2 (convert_loop_outcomes _ _ _ _)).
      unfold print_line. cbn [console].
      rewrite !length_app, length_map. cbn [length]. lia.
    + cbn. rewrite length_app. reflexivity.
  - intros [->| ->]; reflexivity.
Qed.

(** ** The loader and the converter together *)

(** With the metadata that the loader builds from valid rows, a readable
    file is skipped exactly when the [is_published] field of its row is
    not the string [true]: a row that says [True] or [1] makes the post a
    draft. *)
Theorem published_flag_decides_skip
    `{UnicodeDB} `{HtmlParser} `{Html2Text} `{IsoParser} `{FileSystem}
    (rows : list row) (r : row) (name html flag : pystr) :
  Forall valid_row rows ->
  List.NoDup (map row_key rows) ->
  In r rows ->
  _extract_post_id name = row_key r ->
  r !! "is_published"%string = Some flag ->
  read_text name = Ok html ->
  let posts_metadata := fst (load_rows rows ∅) in
  (outcome_of posts_metadata name = SkippedUnpublished <-> flag <> py "true")
  /\ (flag <> py "true" ->
      forall w,
        convert_file posts_metadata name w
        = (false, World (outputs w) (console w ++ [skipped_line name]))).
Proof.
  intros Hvalid Hnd Hr Hid Hflag Hread posts_metadata.
  assert (Hmeta : metadata_of posts_metadata name = row_meta r).
  { unfold metadata_of, posts_metadata. rewrite load_rows_valid by assumption.
    cbn [fst]. rewrite Hid, insert_rows_lookup by assumption. reflexivity. }
  assert (Hpub : default true (published (metadata_of posts_metadata name))
                 = bool_decide (flag = py "true")).
  { rewrite Hmeta. unfold row_meta, field. cbn [published default].
    unfold id. now rewrite Hflag. }
  assert (Hskip : outcome_of posts_metadata name = SkippedUnpublished
                  <-> flag <> py "true").
  { unfold outcome_of. rewrite Hread, Hpub.
    case_bool_decide as Hf; cbn [negb].
    - split; [|contradiction].
      destruct (h2t_handle _); [destruct (write_error _)|]; discriminate.
    - split; [intros _; exact Hf | reflexivity]. }
  split; [exact Hskip|].
  intros Hf w. rewrite convert_file_outcome.
  unfold apply_outcome, report_of.
  rewrite (proj2 Hskip Hf). reflexivity.
Qed.

Lemma published_flag_decides_skip_witness :
  @outcome_of latin1_db reference_parser echo_renderer reference_iso
    sample_fs (fst (load_rows sample_rows ∅)) (py "102.draft.html")
  = SkippedUnpublished.
Proof.
  apply (@published_flag_decides_skip latin1_db reference_parser
           echo_renderer reference_iso sample_fs sample_rows
           (make_row "102.draft" "Draft" "soon" "2024-03-02T12:00:00Z"
              "newsletter" "false")
           (py "102.draft.html") (py "<p>Soon</p>") (py "false")).
  - repeat constructor; eexists; vm_compute; reflexivity.
  - replace (map row_key sample_rows) with [py "101"; py "102"]
      by (vm_compute; reflexivity).
    repeat constructor; cbn; intuition discriminate.
  - right. left. reflexivity.
  - vm_compute. reflexivity.
  - vm_compute. reflexivity.
  - vm_compute. reflexivity.
  - discriminate.
Defined.

(** ** The Markdown body *)

Lemma is_newline_space c : is_newline c = true -> is_space c = true.
Proof. unfold is_newline. intros Hc. apply N.eqb_eq in Hc. now subst. Qed.

Lemma drop_while_head p s :
  match drop_while p s with
  | [] => True
  | c :: _ => p c = false
  end.
Proof.
  induction s as [|c t IH]; cbn [drop_while]; [exact I|].
  destruct (p c) eqn:E; [exact IH | exact E].
Qed.

Lemma no_triple_from_weaken k k' s :
  (k' <= k)%nat -> no_triple_from k s = true -> no_triple_from k' s = true.
Proof.
  revert k k'. induction s as [|c t IH]; intros k k' Hk; [reflexivity|].
  cbn [no_triple_from]. destruct (is_newline c); [|tauto].
  rewrite !andb_true_iff. intros [Hlt Ht]. split.
  - apply Nat.ltb_lt in Hlt. apply Nat.ltb_lt. lia.
  - apply (IH (S k)); [lia | exact Ht].
Qed.

(** A text that starts with at most [2 - k] newlines can follow [k]
    newlines. *)
Lemma no_triple_from_leading k s :
  no_triple_from 0 s = true ->
  (k + leading_newlines s <= 2)%nat ->
  no_triple_from k s = true.
Proof.
  unfold leading_newlines.
  destruct s as [|a t]; [reflexivity|].
  cbn [no_triple_from take_while]. destruct (is_newline a); [|tauto].
  cbn [length]. intros Ht Hk.
  apply andb_true_iff in Ht. destruct Ht as [_ Ht].
  apply andb_true_iff. split; [apply Nat.ltb_lt; lia|].
  destruct t as [|b u]; [reflexivity|].
  cbn [no_triple_from take_while] in *. destruct (is_newline b).
  - cbn [length] in Hk. assert (k = 0)%nat by lia. subst k. exact Ht.
  - exact Ht.
Qed.

Lemma no_triple_from_prefix k a b :
  no_triple_from k (a ++ b) = true -> no_triple_from k a = true.
Proof.
  revert k. induction a as [|c a IH]; intros k; [reflexivity|].
  cbn [app no_triple_from]. destruct (is_newline c); [|apply IH].
  rewrite !andb_true_iff. intros [Hk Ha]. split; [exact Hk | now apply IH].
Qed.

Lemma no_triple_newline_drop_while p s :
  no_triple_newline s = true -> no_triple_newline (drop_while p s) = true.
Proof.
  unfold no_triple_newline.
  assert (Hany : forall k, no_triple_from k s = true ->
                           no_triple_from 0 (drop_while p s) = true).
  { induction s as [|c t IH]; intros k; [reflexivity|].
    cbn [drop_while]. destruct (p c).
    - cbn [no_triple_from]. destruct (is_newline c); [|apply IH].
      rewrite andb_true_iff. intros [_ Ht]. now apply (IH (S k)).
    - apply no_triple_from_weaken. lia. }
  apply Hany.
Qed.

Lemma rstrip_prefix s : exists b, s = rstrip s ++ b.
Proof.
  unfold rstrip. exists (rev (take_while is_space (rev s))).
  rewrite <- rev_app_distr, take_drop_while. now rewrite rev_involutive.
Qed.

Lemma no_triple_newline_strip s :
  no_triple_newline s = true -> no_triple_newline (strip s) = true.
Proof.
  intros Hs. unfold strip.
  destruct (rstrip_prefix (lstrip s)) as [b Hb].
  apply (no_triple_from_prefix 0 _ b). rewrite <- Hb.
  now apply no_triple_newline_drop_while.
Qed.

Lemma leading_newlines_none tail after :
  Forall (fun x => negb (is_newline x) = true) tail ->
  match after with
  | [] => True
  | c :: _ => is_space c = false
  end ->
  leading_newlines (tail ++ after) = 0%nat.
Proof.
  intros Htail Hafter. unfold leading_newlines.
  destruct tail as [|x u].
  - cbn [app]. destruct after as [|d v]; [reflexivity|].
    cbn [take_while]. destruct (is_newline d) eqn:Ed; [|reflexivity].
    apply is_newline_space in Ed. congruence.
  - apply Forall_cons in Htail. destruct Htail as [Hx _].
    cbn [app take_while]. apply negb_true_iff in Hx. now rewrite Hx.
Qed.

(** What follows a match of [\n\s*\n\s*\n] does not start with a
    newline. *)
Lemma match_blank_lines_rest s rest :
  match_blank_lines s = Some rest -> leading_newlines rest = 0%nat.
Proof.
  unfold match_blank_lines. destruct s as [|c t]; [discriminate|].
  destruct (is_newline c); [|discriminate].
  destruct (3 <=? count_newlines _)%nat; [|discriminate].
  intros E. injection E as <-.
  apply leading_newlines_none.
  - apply Forall_rev.
    apply (take_while_holds (fun c0 => negb (is_newline c0))).
  - apply (drop_while_head is_space (c :: t)).
Qed.

Lemma take_while_space_newlines (c : N) (t : pystr) :
  is_newline c = true ->
  count_newlines (take_while is_space (c :: t))
  = S (count_newlines (take_while is_space t)).
Proof.
  intros Hc. cbn [take_while]. rewrite (is_newline_space _ Hc).
  unfold count_newlines. cbn [List.filter]. now rewrite Hc.
Qed.

(** After [re.sub(r'\n\s*\n\s*\n', '\n\n', s)] no three newlines follow
    each other. *)
Lemma sub_blank_lines_fuel_no_triple fuel s :
  (length s <= fuel)%nat ->
  no_triple_newline (sub_blank_lines_fuel fuel s) = true
  /\ (leading_newlines (sub_blank_lines_fuel fuel s) <= 2)%nat
  /\ (leading_newlines (sub_blank_lines_fuel fuel s)
      <= count_newlines (take_while is_space s))%nat.
Proof.
  unfold no_triple_newline. revert s.
  induction fuel as [|fuel IH]; intros s Hlen.
  { destruct s; [|cbn in Hlen; lia]. cbn. repeat split; lia. }
  cbn [sub_blank_lines_fuel]. destruct s as [|c t].
  { cbn. repeat split; lia. }
  cbn [length] in Hlen.
  destruct (match_blank_lines (c :: t)) as [rest|] eqn:E.
  - pose proof (match_blank_lines_shorter _ _ E) as Hshort.
    pose proof (match_blank_lines_rest _ _ E) as Hrest.
    cbn [length] in Hshort.
    destruct (IH rest ltac:(lia)) as (Hnt & _ & _).
    assert (Hlead : leading_newlines (sub_blank_lines_fuel fuel rest) = 0%nat).
    { destruct fuel as [|fuel']; [destruct rest; [reflexivity | cbn in Hshort; lia]|].
      cbn [sub_blank_lines_fuel]. destruct rest as [|d u]; [reflexivity|].
      unfold leading_newlines in Hrest. cbn [take_while] in Hrest.
      destruct (is_newline d) eqn:Ed; [discriminate|].
      unfold match_blank_lines. rewrite Ed.
      unfold leading_newlines. cbn [take_while]. now rewrite Ed. }
    unfold match_blank_lines in E.
    destruct (is_newline c) eqn:Ec; [|discriminate].
    destruct (3 <=? count_newlines (take_while is_space (c :: t)))%nat eqn:E3;
      [|discriminate].
    apply Nat.leb_le in E3.
    set (run_newlines := count_newlines (take_while is_space (c :: t))) in *.
    unfold nl. cbn [app no_triple_from]. change (is_newline 10) with true.
    change (Nat.ltb 0 2) with true. change (Nat.ltb 1 2) with true.
    cbn [andb].
    split; [apply no_triple_from_leading; [exact Hnt | lia]|].
    unfold leading_newlines in *. cbn [take_while].
    change (is_newline 10) with true. cbn [length]. lia.
  - destruct (IH t ltac:(lia)) as (Hnt & Hle2 & Hrun).
    destruct (is_newline c) eqn:Ec.
    + unfold match_blank_lines in E. rewrite Ec in E.
      destruct (3 <=? count_newlines (take_while is_space (c :: t)))%nat eqn:E3;
        [discriminate|].
      apply Nat.leb_gt in E3.
      rewrite take_while_space_newlines in * by assumption.
      set (run_newlines := count_newlines (take_while is_space t)) in *.
      cbn [no_triple_from]. rewrite Ec. change (Nat.ltb 0 2) with true.
      unfold leading_newlines in *. cbn [take_while]. rewrite Ec.
      cbn [andb length].
      split; [apply no_triple_from_leading; [exact Hnt|]|];
        unfold leading_newlines; lia.
    + cbn [no_triple_from]. unfold leading_newlines. cbn [take_while].
      rewrite Ec. cbn [length]. split; [exact Hnt | lia].
Qed.

Lemma starts_clean_strip s :
  starts_clean (strip s) = true /\ starts_clean (rev (strip s)) = true.
Proof.
  unfold strip, rstrip. rewrite rev_involutive.
  pose proof (drop_while_head is_space (rev (lstrip s))) as Hlast.
  split.
  - destruct (rstrip_prefix (lstrip s)) as [b Hb]. unfold rstrip in Hb.
    pose proof (drop_while_head is_space s) as Hfirst.
    fold (lstrip s) in Hfirst.
    destruct (rev (drop_while is_space (rev (lstrip s)))) as [|c u];
      [reflexivity|].
    rewrite Hb in Hfirst. cbn [app] in Hfirst. cbn. now rewrite Hfirst.
  - destruct (drop_while is_space (rev (lstrip s))) as [|c u]; [reflexivity|].
    cbn. now rewrite Hlast.
Qed.

(** The body written behind the frontmatter, whatever the renderer
    returns: it neither starts nor ends with whitespace, and no three
    newlines follow each other in it. *)
Theorem markdown_body_normalised
    `{UnicodeDB} `{HtmlParser} `{Html2Text} `{IsoParser} `{FileSystem}
    (posts_metadata : gmap pystr post_meta) (name markdown : pystr) :
  let body := strip (sub_blank_lines markdown) in
  full_content_of posts_metadata name markdown
  = _create_frontmatter (_extract_post_id name)
      (metadata_of posts_metadata name) ++ body
  /\ no_triple_newline body = true
  /\ starts_clean body = true
  /\ starts_clean (rev body) = true.
Proof.
  intros body. split; [reflexivity|]. split.
  - apply no_triple_newline_strip. unfold sub_blank_lines.
    now apply sub_blank_lines_fuel_no_triple.
  - apply starts_clean_strip.
Qed.

(** ** Numbers typed at the prompt *)

Lemma uint_digits_are_digits d :
  Forall (fun c => is_digit c = true) (uint_digits d).
Proof. induction d; cbn [uint_digits]; constructor; easy. Qed.

Lemma str_nat_not_empty n : str_nat n <> [].
Proof.
  unfold str_nat. pose proof (Unsigned.of_to n) as Hn.
  destruct (Nat.to_uint n) eqn:E; cbn [uint_digits]; try discriminate.
  cbn in Hn. subst n. discriminate.
Qed.

Lemma is_digit_bounds c : is_digit c = true -> 48 <= c <= 57.
Proof.
  unfold is_digit. rewrite andb_true_iff, !N.leb_le. tauto.
Qed.

Lemma is_digit_not_space c : is_digit c = true -> is_space c = false.
Proof.
  intros Hc. apply is_digit_bounds in Hc. unfold is_space.
  repeat match goal with
         | |- context [?a <=? ?b] => destruct (N.leb_spec a b)
         | |- context [?a =? ?b] => destruct (N.eqb_spec a b)
         end; try reflexivity; lia.
Qed.

Lemma strip_no_space s :
  Forall (fun c => is_space c = false) s -> strip s = s.
Proof.
  intros Hs.
  assert (Hdrop : forall t, Forall (fun c => is_space c = false) t ->
                            drop_while is_space t = t).
  { intros t Ht. destruct Ht as [|c t Hc _]; [reflexivity|].
    cbn [drop_while]. now rewrite Hc. }
  unfold strip, rstrip, lstrip.
  rewrite (Hdrop s Hs), (Hdrop (rev s)) by now apply Forall_rev.
  apply rev_involutive.
Qed.

Lemma lower_digits s : Forall (fun c => is_digit c = true) s -> lower s = s.
Proof.
  unfold lower. induction 1 as [|c s Hc _ IH]; [reflexivity|].
  cbn [map]. rewrite IH. f_equal. apply is_digit_bounds in Hc.
  destruct (N.leb_spec 65 c); [lia | reflexivity].
Qed.

Section DigitFacts.
Context `{DigitDB}.

Lemma digit_class_of_digit c :
  is_digit c = true -> digit_class_of c = Decimal (N.to_nat (c - 48)).
Proof.
  intros Hc. unfold digit_class_of. rewrite Hc.
  apply is_digit_bounds in Hc.
  destruct (N.ltb_spec c 128); [reflexivity | lia].
Qed.

Lemma isdigit_digits s :
  s <> [] -> Forall (fun c => is_digit c = true) s -> isdigit s = true.
Proof.
  intros Hne Hs. unfold isdigit. destruct s as [|c t]; [contradiction|].
  apply forallb_forall. intros x Hx.
  rewrite List.Forall_forall in Hs.
  now rewrite digit_class_of_digit by now apply Hs.
Qed.

Lemma int_digits_uint d acc :
  int_digits acc (uint_digits d) = Some (Nat.of_uint_acc d acc).
Proof.
  revert acc. induction d; intros acc; cbn [uint_digits int_digits];
    [reflexivity|..];
    (rewrite digit_class_of_digit by reflexivity;
     rewrite IHd; cbn [Nat.of_uint_acc]; rewrite Nat.tail_mul_spec;
     f_equal; f_equal; cbn; lia).
Qed.

Lemma take_while_decimal_digits s :
  Forall (fun c => is_digit c = true) s -> take_while is_decimal s = s.
Proof.
  induction 1 as [|c s Hc _ IH]; [reflexivity|].
  cbn [take_while]. unfold is_decimal at 1.
  rewrite digit_class_of_digit by exact Hc. now rewrite IH.
Qed.

Lemma decimal_run_str_nat n :
  length (take_while is_decimal (str_nat n)) = length (str_nat n).
Proof.
  rewrite take_while_decimal_digits; [reflexivity|].
  apply uint_digits_are_digits.
Qed.

(** [int(str(n))] is [n], as long as [str(n)] is within the limit of
    digits. *)
Lemma int_of_str_nat n :
  (length (str_nat n) <= int_max_str_digits)%nat -> int_of (str_nat n) = Ok n.
Proof.
  intros Hlen. unfold int_of. rewrite decimal_run_str_nat.
  replace (Nat.ltb int_max_str_digits (length (str_nat n))) with false
    by (symmetry; apply Nat.ltb_ge; exact Hlen).
  pose proof (str_nat_not_empty n) as Hne.
  unfold str_nat in *.
  pose proof (int_digits_uint (Nat.to_uint n) 0) as Hd.
  change (Nat.of_uint_acc (Nat.to_uint n) 0)
    with (Nat.of_uint (Nat.to_uint n)) in Hd.
  rewrite Unsigned.of_to in Hd.
  destruct (uint_digits (Nat.to_uint n)); [contradiction|].
  now rewrite Hd.
Qed.

Lemma int_of_str_nat_long n :
  (int_max_str_digits < length (str_nat n))%nat ->
  int_of (str_nat n) = Raise (exceeds_limit (length (str_nat n))).
Proof.
  intros Hlen. unfold int_of. rewrite decimal_run_str_nat.
  now replace (Nat.ltb int_max_str_digits (length (str_nat n))) with true
    by (symmetry; apply Nat.ltb_lt; exact Hlen).
Qed.

(** [int] of the numeral of [n], within the limit and beyond it. *)
Lemma int_of_numeral n :
  int_of (str_nat n)
  = if Nat.leb (length (str_nat n)) int_max_str_digits then Ok n
    else Raise (exceeds_limit (length (str_nat n))).
Proof.
  destruct (Nat.leb_spec (length (str_nat n)) int_max_str_digits).
  - now apply int_of_str_nat.
  - now apply int_of_str_nat_long.
Qed.
End DigitFacts.

(** ** The choice of the export directory *)

Section SelectFacts.
Context `{DigitDB} `{OsPath}.

Lemma choose_invalid directories s rest w :
  invalid_choice (length directories) s ->
  choose directories (Line s :: rest) w
  = choose directories rest (World (outputs w) (console w ++ [invalid_line])).
Proof.
  intros [Hq Hbad]. cbn [choose].
  rewrite bool_decide_eq_false_2 by assumption.
  destruct Hbad as [Hnot|(n & Hn & Hrange)].
  - rewrite Hnot. reflexivity.
  - destruct (isdigit (strip s)); [|reflexivity].
    unfold bind, lift. rewrite Hn.
    replace (Nat.leb 1 n && Nat.leb n (length directories)) with false;
      [reflexivity|].
    symmetry. apply andb_false_iff.
    destruct Hrange as [->|Hbig]; [left; reflexivity|].
    right. apply Nat.leb_gt. lia.
Qed.

Lemma choose_outputs directories inputs w :
  outputs (snd (choose directories inputs w)) = outputs w.
Proof.
  revert w. induction inputs as [|[s|] rest IH]; intros w;
    [reflexivity | | reflexivity].
  cbn [choose]. case_bool_decide; [reflexivity|].
  destruct (isdigit (strip s)).
  - unfold bind at 1, lift. destruct (int_of (strip s)) as [n|e];
      [|reflexivity].
    destruct (Nat.leb 1 n && Nat.leb n (length directories)).
    + destruct (nth_error directories (n - 1)); reflexivity.
    + unfold bind, print. now rewrite IH.
  - unfold bind, print. now rewrite IH.
Qed.

Lemma print_listing_outputs i directories w :
  fst (print_listing i directories w) = Ok tt
  /\ outputs (snd (print_listing i directories w)) = outputs w.
Proof.
  revert i w. induction directories as [|entry rest IH]; intros i w;
    [easy|].
  cbn [print_listing]. unfold bind, print.
  destruct (IH (S i) (World (outputs w)
             (console w ++ [str_nat i ++ py ". " ++ entry_name entry
                ++ py " (last modified: " ++ entry_modified entry ++ py ")"])))
    as [IH1 IH2].
  now rewrite IH2.
Qed.

Lemma select_outputs export inputs w :
  outputs (snd (select_export_directory export inputs w)) = outputs w.
Proof.
  unfold select_export_directory.
  destruct export as [entries|]; [|reflexivity].
  destruct (List.filter entry_is_dir entries) as [|entry rest] eqn:E;
    [reflexivity|].
  unfold bind at 1, print at 1.
  unfold bind at 1.
  destruct (print_listing_outputs 1 (entry :: rest)
              (World (outputs w)
                 (console w ++ [nl ++ py "Available export directories:"])))
    as [Hok Hout].
  destruct (print_listing 1 (entry :: rest) _) as [[[]|e] w1];
    [|discriminate].
  cbn [snd] in Hout. now rewrite choose_outputs, Hout.
Qed.

Lemma choose_listed directories inputs w d w' :
  choose directories inputs w = (Ok (Some d), w') ->
  exists entry,
    In entry directories /\ d = path_join export_base (entry_name entry).
Proof.
  revert w. induction inputs as [|[s|] rest IH]; intros w;
    [discriminate | | discriminate].
  cbn [choose]. case_bool_decide; [discriminate|].
  destruct (isdigit (strip s)).
  - unfold bind at 1, lift. destruct (int_of (strip s)) as [n|e];
      [|discriminate].
    destruct (Nat.leb 1 n && Nat.leb n (length directories)).
    + destruct (nth_error directories (n - 1)) as [entry|] eqn:E;
        [|discriminate].
      unfold bind, print, ret. intros Hsel. injection Hsel as <- _.
      exists entry. split; [now apply nth_error_In in E | reflexivity].
    + unfold bind at 1, print. apply IH.
  - unfold bind at 1, print. apply IH.
Qed.
End SelectFacts.

Lemma choose_valid_number `{DigitDB} `{OsPath}
    (directories : list dir_entry) (k : nat) (s : pystr)
    (rest : list input_event) (w : world) :
  strip s = str_nat k ->
  (1 <= k <= length directories)%nat ->
  exists entry,
    nth_error directories (k - 1) = Some entry
    /\ choose directories (Line s :: rest) w
       = if Nat.leb (length (strip s)) int_max_str_digits
         then (Ok (Some (path_join export_base (entry_name entry))),
               World (outputs w)
                     (console w
                        ++ [py "Selected: "
                              ++ path_join export_base (entry_name entry)]))
         else (Raise (exceeds_limit (length (strip s))), w).
Proof.
  intros Hs Hk.
  destruct (nth_error directories (k - 1)) as [entry|] eqn:E.
  2:{ apply nth_error_None in E. lia. }
  exists entry. split; [reflexivity|].
  pose proof (uint_digits_are_digits (Nat.to_uint k)) as Hdigits.
  fold (str_nat k) in Hdigits.
  cbn [choose]. rewrite Hs.
  rewrite lower_digits by assumption.
  rewrite bool_decide_eq_false_2.
  2:{ intros Hq. rewrite Hq in Hdigits.
      apply Forall_cons in Hdigits. destruct Hdigits as [Hd _].
      discriminate. }
  rewrite isdigit_digits by (assumption || apply str_nat_not_empty).
  unfold bind at 1, lift. rewrite int_of_numeral.
  destruct (Nat.leb (length (str_nat k)) int_max_str_digits); [|reflexivity].
  replace (Nat.leb 1 k && Nat.leb k (length directories)) with true.
  2:{ symmetry. apply andb_true_iff. split; apply Nat.leb_le; lia. }
  rewrite E. reflexivity.
Qed.

(** A line that, trimmed, is the decimal numeral of a position of the
    list selects the directory at that position, counted from one, and
    ends the loop; what is typed behind it is not read.  This is so for
    every numeral that [int] converts, those of at most 4300 digits; a
    longer one, which no list a machine holds calls for, makes [int]
    raise. *)
Theorem select_valid_number `{DigitDB} `{OsPath}
    (directories : list dir_entry) (k : nat) (s : pystr)
    (rest : list input_event) (w : world) :
  strip s = str_nat k ->
  (1 <= k <= length directories)%nat ->
  exists entry,
    nth_error directories (k - 1) = Some entry
    /\ choose directories (Line s :: rest) w
       = if Nat.leb (length (strip s)) int_max_str_digits
         then (Ok (Some (path_join export_base (entry_name entry))),
               World (outputs w)
                     (console w
                        ++ [py "Selected: "
                              ++ path_join export_base (entry_name entry)]))
         else (Raise (exceeds_limit (length (strip s))), w).
Proof.
  intros Hs Hk.
  destruct (nth_error directories (k - 1)) as [entry|] eqn:E.
  2:{ apply nth_error_None in E. lia. }
  exists entry. split; [reflexivity|].
  pose proof (uint_digits_are_digits (Nat.to_uint k)) as Hdigits.
  fold (str_nat k) in Hdigits.
  cbn [choose]. rewrite Hs.
  rewrite lower_digits by assumption.
  rewrite bool_decide_eq_false_2.
  2:{ intros Hq. rewrite Hq in Hdigits.
      apply Forall_cons in Hdigits. destruct Hdigits as [Hd _].
      discriminate. }
  rewrite isdigit_digits by (assumption || apply str_nat_not_empty).
  unfold bind at 1, lift. rewrite int_of_numeral.
  destruct (Nat.leb (length (str_nat k)) int_max_str_digits); [|reflexivity].
  replace (Nat.leb 1 k && Nat.leb k (length directories)) with true.
  2:{ symmetry. apply andb_true_iff. split; apply Nat.leb_le; lia. }
  rewrite E. reflexivity.
Qed.

Lemma select_valid_number_witness :
  fst (@choose latin1_digits posix_path
         (List.filter entry_is_dir sample_export)
         [Line (py " 2 "); Line (py "1")] empty_world)
  = Ok (Some (py "export/2024-04-01")).
Proof.
  destruct (@select_valid_number latin1_digits posix_path
              (List.filter entry_is_dir sample_export) 2 (py " 2 ")
              [Line (py "1")] empty_world)
    as (entry & Hentry & Hchoose).
  - reflexivity.
  - cbn. lia.
  - rewrite Hchoose. injection Hentry as <-. reflexivity.
Defined.

(** The selection returns only directories of the listing: the result,
    if there is one, is [export] joined with the name of an entry of the
    export folder that is a directory; and the selection writes nothing
    to the output directory. *)
Theorem select_only_listed_directories `{DigitDB} `{OsPath}
    (export : option (list dir_entry)) (inputs : list input_event)
    (w w' : world) (d : pystr) :
  select_export_directory export inputs w = (Ok (Some d), w') ->
  exists entries entry,
    export = Some entries
    /\ In entry entries
    /\ entry_is_dir entry = true
    /\ d = path_join export_base (entry_name entry)
    /\ outputs w' = outputs w.
Proof.
  intros Hsel.
  pose proof (select_outputs export inputs w) as Hout.
  rewrite Hsel in Hout. cbn [snd] in Hout.
  unfold select_export_directory in Hsel.
  destruct export as [entries|]; [|discriminate].
  destruct (List.filter entry_is_dir entries) as [|e0 rest0] eqn:E;
    [discriminate|].
  unfold bind at 1, print at 1 in Hsel. unfold bind at 1 in Hsel.
  destruct (print_listing 1 (e0 :: rest0) _) as [[[]|e] w1]; [|discriminate].
  apply choose_listed in Hsel. destruct Hsel as (entry & Hin & Hd).
  rewrite <- E in Hin. apply filter_In in Hin.
  exists entries, entry. tauto.
Qed.

Lemma select_only_listed_directories_witness :
  exists entry,
    In entry sample_export
    /\ entry_is_dir entry = true
    /\ py "export/2024-03-01" = @path_join posix_path export_base (entry_name entry).
Proof.
  destruct (@select_only_listed_directories latin1_digits posix_path
              (Some sample_export) [Line (py "7"); Line (py "1")] empty_world
              (snd (@select_export_directory latin1_digits posix_path
                      (Some sample_export) [Line (py "7"); Line (py "1")]
                      empty_world))
              (py "export/2024-03-01"))
    as (entries & entry & Hexp & Hin & Hdir & Hd & _).
  - vm_compute. reflexivity.
  - injection Hexp as <-. exists entry. tauto.
Defined.

(** Lines that are neither [q] nor a number of the list (no digits, or
    a number that [int] converts and that is zero or beyond the list) are
    answered with "Invalid choice" one by one, and the loop goes on with
    what follows them; zero is such a line, and so is one more than the
    length of the list when [int] converts it.  When the input ends
    behind them, the selection is cancelled.  A line of more decimal
    digits than [int] converts is not answered so. *)
Theorem select_skips_invalid_lines `{DigitDB} `{OsPath}
    (directories : list dir_entry) (lines : list pystr)
    (rest : list input_event) (w : world) :
  Forall (invalid_choice (length directories)) lines ->
  choose directories (map Line lines ++ rest) w
  = choose directories rest
      (World (outputs w) (console w ++ repeat invalid_line (length lines)))
  /\ choose directories (map Line lines) w
     = (Ok None,
        World (outputs w)
              (console w ++ repeat invalid_line (length lines)
                 ++ [nl ++ py "Operation cancelled."]))
  /\ invalid_choice (length directories) (py "0")
  /\ ((length (str_nat (S (length directories))) <= int_max_str_digits)%nat ->
      invalid_choice (length directories) (str_nat (S (length directories))))
  /\ (forall s,
        isdigit (strip s) = true ->
        (int_max_str_digits < length (take_while is_decimal (strip s)))%nat ->
        ~ invalid_choice (length directories) s).
Proof.
  intros Hlines.
  assert (Hskip : forall rest' w0,
            choose directories (map Line lines ++ rest') w0
            = choose directories rest'
                (World (outputs w0)
                   (console w0 ++ repeat invalid_line (length lines)))).
  { intros rest'. induction Hlines as [|s lines Hs _ IH]; intros w0.
    - cbn. rewrite app_nil_r. now destruct w0.
    - cbn [map app]. rewrite choose_invalid by assumption.
      rewrite IH. cbn [outputs console length repeat].
      now rewrite <- app_assoc. }
  split; [apply Hskip|]. split.
  { rewrite <- (app_nil_r (map Line lines)), Hskip. cbn [choose].
    unfold bind, print, ret. cbn [outputs console].
    now rewrite <- app_assoc. }
  assert (Hnum : forall n,
            (n = 0 \/ length directories < n)%nat ->
            (length (str_nat n) <= int_max_str_digits)%nat ->
            invalid_choice (length directories) (str_nat n)).
  { intros n Hn Hlen.
    pose proof (uint_digits_are_digits (Nat.to_uint n)) as Hdigits.
    fold (str_nat n) in Hdigits.
    assert (Hstrip : strip (str_nat n) = str_nat n).
    { apply strip_no_space. eapply Forall_impl; [exact Hdigits|].
      intros c. apply is_digit_not_space. }
    unfold invalid_choice. rewrite Hstrip. split.
    - rewrite lower_digits by assumption. intros Hq.
      rewrite Hq in Hdigits. apply Forall_cons in Hdigits.
      destruct Hdigits as [Hd _]. discriminate.
    - right. exists n. split; [now apply int_of_str_nat | exact Hn]. }
  split.
  { apply (Hnum 0%nat); [now left|].
    change (length (str_nat 0)) with 1%nat. unfold int_max_str_digits. lia. }
  split; [intros Hlen; apply Hnum; [right; lia | exact Hlen]|].
  intros s Hdigit Hlong [_ [Hnot|(n & Hn & _)]]; [congruence|].
  unfold int_of in Hn.
  replace (Nat.ltb int_max_str_digits
             (length (take_while is_decimal (strip s)))) with true in Hn
    by (symmetry; apply Nat.ltb_lt; exact Hlong).
  discriminate.
Qed.

Lemma select_skips_invalid_lines_witness :
  fst (@choose latin1_digits posix_path
         (List.filter entry_is_dir sample_export)
         [Line (py "0"); Line (py "three"); Line (py "3")] empty_world)
  = Ok None.
Proof.
  destruct (@select_skips_invalid_lines latin1_digits posix_path
              (List.filter entry_is_dir sample_export)
              [py "0"; py "three"; py "3"] [] empty_world)
    as (_ & Hend & _).
  - constructor; [|constructor; [|constructor; [|constructor]]].
    + split; [discriminate|]. right. exists 0%nat.
      split; [reflexivity | now left].
    + split; [discriminate|]. left. reflexivity.
    + split; [discriminate|]. right. exists 3%nat.
      split; [reflexivity | right; cbn; lia].
  - cbn [map] in Hend. now rewrite Hend.
Defined.

(** A line of digits that [int] does not convert ends the selection with
    the [ValueError] of [int], which the loop does not catch.  Such a
    line passes [isdigit] and holds a digit that has no decimal value,
    a superscript two for one: the error names the line, its [repr] cut
    at 200 characters, unless more decimal digits than the limit of 4300
    stand at its start, which are then the error.  A line of decimal
    digits alone beyond that limit raises as well. *)
Theorem select_non_decimal_digit_raises `{DigitDB} `{OsPath}
    (directories : list dir_entry) (s : pystr) (rest : list input_event)
    (w : world) :
  isdigit (strip s) = true ->
  let run := length (take_while is_decimal (strip s)) in
  (int_digits 0 (strip s) = None ->
   choose directories (Line s :: rest) w
   = (Raise (if Nat.ltb int_max_str_digits run then exceeds_limit run
             else py "invalid literal for int() with base 10: "
                    ++ take 200 ([39] ++ strip s ++ [39])), w))
  /\ (int_digits 0 (strip s) = None ->
      (length (strip s) <= 198)%nat ->
      choose directories (Line s :: rest) w
      = (Raise (py "invalid literal for int() with base 10: '" ++ strip s
                  ++ py "'"), w))
  /\ ((int_max_str_digits < run)%nat ->
      choose directories (Line s :: rest) w = (Raise (exceeds_limit run), w)).
Proof.
  intros Hdigit run.
  assert (Hq : lower (strip s) <> py "q").
  { intros Hq. unfold isdigit in Hdigit.
    destruct (strip s) as [|c t] eqn:Es; [discriminate|].
    destruct t as [|c' t']; [|destruct c; discriminate].
    cbn [forallb] in Hdigit. unfold digit_class_of in Hdigit.
    unfold lower in Hq. cbn [map] in Hq. injection Hq as Hq.
    destruct (N.leb_spec 65 c); destruct (N.leb_spec c 90);
      cbn [andb] in Hq.
    - assert (c = 81) by lia. subst c. discriminate.
    - subst c. discriminate.
    - subst c. lia.
    - subst c. discriminate. }
  assert (Hchoose : choose directories (Line s :: rest) w
                    = match int_of (strip s) with
                      | Ok n => choose directories (Line s :: rest) w
                      | Raise e => (Raise e, w)
                      end).
  { cbn [choose]. rewrite bool_decide_eq_false_2 by exact Hq.
    rewrite Hdigit. unfold bind at 1, lift.
    destruct (int_of (strip s)); reflexivity. }
  assert (Hnone : int_digits 0 (strip s) = None ->
            int_of (strip s)
            = Raise (if Nat.ltb int_max_str_digits run then exceeds_limit run
                     else invalid_literal (strip s))).
  { intros Hint. unfold int_of. fold run.
    destruct (Nat.ltb int_max_str_digits run); [reflexivity|].
    destruct (strip s) as [|c t]; [reflexivity|]. now rewrite Hint. }
  split; [|split].
  - intros Hint. rewrite Hchoose, (Hnone Hint). reflexivity.
  - intros Hint Hshort. rewrite Hchoose, (Hnone Hint).
    assert (Hrun : (run <= length (strip s))%nat).
    { subst run. clear. induction (strip s) as [|c t IH]; [cbn; lia|].
      cbn [take_while]. destruct (is_decimal c); cbn [length]; lia. }
    replace (Nat.ltb int_max_str_digits run) with false
      by (symmetry; apply Nat.ltb_ge; unfold int_max_str_digits; lia).
    unfold invalid_literal. rewrite firstn_all2.
    + reflexivity.
    + rewrite !length_app. cbn [length]. lia.
  - intros Hlong. rewrite Hchoose. unfold int_of. fold run.
    now replace (Nat.ltb int_max_str_digits run) with true
      by (symmetry; apply Nat.ltb_lt; exact Hlong).
Qed.

Lemma select_non_decimal_digit_raises_witness :
  fst (@choose latin1_digits posix_path
         (List.filter entry_is_dir sample_export) [Line [178]] empty_world)
  = Raise (py "invalid literal for int() with base 10: '" ++ [178] ++ py "'").
Proof.
  destruct (@select_non_decimal_digit_raises latin1_digits posix_path
              (List.filter entry_is_dir sample_export) [178] [] empty_world)
    as (_ & Hshort & _); [reflexivity|].
  rewrite Hshort; [reflexivity | reflexivity | cbn; lia].
Defined.

(** ** The program as a whole *)

Section MainFacts.
Context `{UnicodeDB} `{HtmlParser} `{Html2Text} `{IsoParser}.
Context `{DigitDB} `{OsPath} `{Exports}.

(** The metadata that the constructor loads. *)
Lemma load_posts_metadata_result `{FileSystem} (csv : option (list row))
    (w : world) :
  exists w',
    _load_posts_metadata csv w
    = (Ok match csv with
          | Some rows => fst (load_rows rows ∅)
          | None => ∅
          end, w')
    /\ outputs w' = outputs w.
Proof.
  unfold _load_posts_metadata. destruct csv as [rows|].
  - destruct (load_rows rows ∅) as [metadata [msg|]];
      eexists; split; reflexivity.
  - eexists. split; reflexivity.
Qed.

Lemma select_none export inputs w :
  export = None
  \/ (exists entries,
        export = Some entries /\ List.filter entry_is_dir entries = [])
  \/ inputs = []
  \/ (exists rest, inputs = Interrupt :: rest)
  \/ (exists s rest, inputs = Line s :: rest /\ lower (strip s) = py "q") ->
  fst (select_export_directory export inputs w) = Ok None.
Proof.
  intros Hcase. unfold select_export_directory.
  destruct export as [entries|]; [|reflexivity].
  destruct (List.filter entry_is_dir entries) as [|e0 rest0] eqn:E;
    [reflexivity|].
  unfold bind at 1, print at 1. unfold bind at 1.
  destruct (print_listing_outputs 1 (e0 :: rest0)
              (World (outputs w)
                 (console w ++ [nl ++ py "Available export directories:"])))
    as [Hok _].
  destruct (print_listing 1 (e0 :: rest0) _) as [[[]|e] w1]; [|discriminate].
  destruct Hcase as [Hc|[(entries' & Hc & Hf)|[->|[(rest & ->)|(s & rest & -> & Hq)]]]].
  - discriminate.
  - injection Hc as <-. congruence.
  - reflexivity.
  - reflexivity.
  - cbn [choose]. now rewrite bool_decide_eq_true_2.
Qed.
End MainFacts.

(** Without a selection the program converts nothing: when the export
    folder is missing or holds no directory, when the input ends or is
    interrupted at the first prompt, or when the first answer is [q] or
    [Q], [main] returns and the output directory is as it was. *)
Theorem main_without_selection
    `{UnicodeDB} `{HtmlParser} `{Html2Text} `{IsoParser}
    `{DigitDB} `{OsPath} `{Exports}
    (export : option (list dir_entry)) (inputs : list input_event)
    (w : world) :
  export = None
  \/ (exists entries,
        export = Some entries /\ List.filter entry_is_dir entries = [])
  \/ inputs = []
  \/ (exists rest, inputs = Interrupt :: rest)
  \/ (exists s rest, inputs = Line s :: rest /\ lower (strip s) = py "q") ->
  exists w',
    main export inputs w = (Ok tt, w') /\ outputs w' = outputs w.
Proof.
  intros Hcase.
  pose proof (select_none export inputs w Hcase) as Hnone.
  pose proof (select_outputs export inputs w) as Hout.
  unfold main, bind at 1.
  destruct (select_export_directory export inputs w) as [r w1].
  cbn [fst snd] in *. subst r. exists w1. split; [reflexivity | exact Hout].
Qed.

Lemma main_without_selection_witness :
  exists w',
    @main latin1_db reference_parser echo_renderer reference_iso
      latin1_digits posix_path sample_exports
      (Some sample_export) [Line (py " Q ")] empty_world
    = (Ok tt, w')
    /\ outputs w' = ∅.
Proof.
  apply (@main_without_selection latin1_db reference_parser echo_renderer
           reference_iso latin1_digits posix_path sample_exports).
  right. right. right. right. exists (py " Q "), []. split; reflexivity.
Defined.

(** When the program ends with an exception, raised by [int] at the
    prompt or by the creation of the output directory, no file has been
    converted: the output directory is as it was. *)
Theorem main_failure_writes_nothing
    `{UnicodeDB} `{HtmlParser} `{Html2Text} `{IsoParser}
    `{DigitDB} `{OsPath} `{Exports}
    (export : option (list dir_entry)) (inputs : list input_event)
    (w w' : world) (e : pystr) :
  main export inputs w = (Raise e, w') ->
  outputs w' = outputs w.
Proof.
  pose proof (select_outputs export inputs w) as Hout.
  unfold main, bind at 1.
  destruct (select_export_directory export inputs w) as [[[dir|]|e0] w1];
    cbn [snd] in Hout.
  - destruct dir as [|c dir]; [discriminate|].
    unfold bind at 1, print at 1. unfold bind at 1, init_converter.
    destruct (mkdir_error _) as [e1|].
    + unfold lift. intros E. injection E as _ <-. exact Hout.
    + match goal with
      | |- context [@_load_posts_metadata ?fs ?csv ?w0] =>
          destruct (@load_posts_metadata_result fs csv w0) as (w2 & Hload & _)
      end.
      rewrite Hload. discriminate.
  - discriminate.
  - intros E. injection E as _ <-. exact Hout.
Qed.

Lemma main_failure_writes_nothing_witness :
  outputs (snd (@main latin1_db reference_parser echo_renderer reference_iso
                  latin1_digits posix_path sample_exports
                  (Some sample_export) [Line [178]] empty_world))
  = ∅.
Proof.
  apply (@main_failure_writes_nothing latin1_db reference_parser
           echo_renderer reference_iso latin1_digits posix_path
           sample_exports (Some sample_export) [Line [178]] empty_world _
           (py "invalid literal for int() with base 10: '" ++ [178]
              ++ py "'")).
  vm_compute. reflexivity.
Defined.

(** A valid number at the first prompt runs the converter on that export:
    the metadata come from its [posts.csv], the files from its posts
    directory, and at the end the output directory holds what the batch
    over these files writes.  This is so for every numeral that [int]
    converts, those of at most 4300 digits; at a longer one the program
    ends with the error of [int] and writes nothing. *)
Theorem main_converts_selected_export
    `{UnicodeDB} `{HtmlParser} `{Html2Text} `{IsoParser}
    `{DigitDB} `{OsPath} `{Exports}
    (entries : list dir_entry) (k : nat) (s : pystr)
    (rest : list input_event) (entry : dir_entry) (w : world) :
  strip s = str_nat k ->
  nth_error (List.filter entry_is_dir entries) (k - 1) = Some entry ->
  (1 <= k)%nat ->
  let export_dir := path_join export_base (entry_name entry) in
  export_dir <> [] ->
  mkdir_error (path_join export_dir (py "markdown_posts")) = None ->
  let posts_metadata :=
    match export_csv export_dir with
    | Some rows => fst (load_rows rows ∅)
    | None => ∅
    end in
  ((length (strip s) <= int_max_str_digits)%nat ->
   exists w',
     main (Some entries) (Line s :: rest) w = (Ok tt, w')
     /\ outputs w'
        = write_all
            (@writes_of _ _ _ _ (export_files export_dir) posts_metadata
               (default [] (export_listing export_dir)))
            (outputs w))
  /\ ((int_max_str_digits < length (strip s))%nat ->
      exists w',
        main (Some entries) (Line s :: rest) w
        = (Raise (exceeds_limit (length (strip s))), w')
        /\ outputs w' = outputs w).
Proof.
  intros Hs Hentry Hk export_dir Hdir Hmkdir posts_metadata.
  assert (Hlen : (k <= length (List.filter entry_is_dir entries))%nat).
  { assert (k - 1 < length (List.filter entry_is_dir entries))%nat
      by (apply nth_error_Some; congruence).
    lia. }
  subst posts_metadata export_dir.
  remember (path_join export_base (entry_name entry)) as d eqn:Ed.
  assert (Hsel : exists w1,
            select_export_directory (Some entries) (Line s :: rest) w
            = (if Nat.leb (length (strip s)) int_max_str_digits
               then (Ok (Some d),
                     World (outputs w1) (console w1 ++ [py "Selected: " ++ d]))
               else (Raise (exceeds_limit (length (strip s))), w1))
            /\ outputs w1 = outputs w).
  { unfold select_export_directory.
    destruct (List.filter entry_is_dir entries) as [|e0 rest0] eqn:E.
    { cbn in Hlen. lia. }
    unfold bind at 1, print at 1. unfold bind at 1.
    destruct (print_listing_outputs 1 (e0 :: rest0)
                (World (outputs w)
                   (console w ++ [nl ++ py "Available export directories:"])))
      as [Hok Hout].
    destruct (print_listing 1 (e0 :: rest0) _) as [[[]|e] w1];
      [|discriminate].
    cbn [snd outputs] in Hout.
    destruct (choose_valid_number (e0 :: rest0) k s rest w1 Hs ltac:(lia))
      as (entry' & Hentry' & Hchoose).
    rewrite Hentry in Hentry'. injection Hentry' as <-.
    rewrite <- Ed in Hchoose. exists w1. split; [|exact Hout].
    rewrite Hchoose.
    now destruct (Nat.leb (length (strip s)) int_max_str_digits). }
  destruct Hsel as (w1 & Hsel & Hout).
  unfold main, bind at 1. unfold bind at 3. rewrite Hsel.
  split; intros Hdigits.
  - replace (Nat.leb (length (strip s)) int_max_str_digits) with true
      by (symmetry; apply Nat.leb_le; exact Hdigits).
    destruct d as [|c dir]; [contradiction|].
    unfold bind at 1, print at 1. unfold bind at 1, init_converter.
    rewrite Hmkdir.
    match goal with
    | |- context [@_load_posts_metadata ?fs ?csv ?w0] =>
        destruct (@load_posts_metadata_result fs csv w0)
          as (w2 & Hload & Hout2)
    end.
    rewrite Hload. eexists. split; [reflexivity|].
    rewrite convert_all_outputs.
    cbn [outputs] in Hout2. now rewrite Hout2, Hout.
  - replace (Nat.leb (length (strip s)) int_max_str_digits) with false
      by (symmetry; apply Nat.leb_gt; exact Hdigits).
    exists w1. split; [reflexivity | exact Hout].
Qed.

Lemma main_converts_selected_export_witness :
  exists w',
    @main latin1_db reference_parser echo_renderer reference_iso
      latin1_digits posix_path sample_exports
      (Some sample_export) [Line (py "1")] empty_world
    = (Ok tt, w')
    /\ size (outputs w') = 2%nat
    /\ outputs w' !! py "102_Draft.md" = None.
Proof.
  destruct (@main_converts_selected_export latin1_db reference_parser
              echo_renderer reference_iso latin1_digits posix_path
              sample_exports sample_export 1 (py "1") []
              {| entry_name := py "2024-03-01"; entry_is_dir := true;
                 entry_modified := py "2024-03-01 12:00" |} empty_world)
    as [Hshort _];
    [reflexivity | reflexivity | lia | discriminate | reflexivity |].
  destruct Hshort as (w' & Hmain & Hout).
  { change (length (strip (py "1"))) with 1%nat.
    unfold int_max_str_digits. lia. }
  exists w'. split; [exact Hmain|].
  rewrite Hout. split; vm_compute; reflexivity.
Defined.

(** ** Defaults and empty titles *)

(** A post without a metadata record is written although its own header
    calls it unpublished: the publish check defaults to true (line 154),
    the header to false (line 134).  The other defaults are the title
    [Untitled], the type [post], no subtitle line, and the date line that
    the formatter makes of the empty string. *)
Theorem missing_metadata_header
    `{UnicodeDB} `{HtmlParser} `{Html2Text} `{IsoParser} `{FileSystem}
    (posts_metadata : gmap pystr post_meta) (name html markdown : pystr)
    (w : world) :
  posts_metadata !! _extract_post_id name = None ->
  read_text name = Ok html ->
  h2t_handle (_clean_html_content html) = Ok markdown ->
  write_error (output_filename_of posts_metadata name) = None ->
  fst (convert_file posts_metadata name w) = true
  /\ outputs (snd (convert_file posts_metadata name w))
       !! output_filename_of posts_metadata name
     = Some (unlines [py "---";
                      py "title: " ++ [dq] ++ py "Untitled" ++ [dq];
                      py "date: " ++ _format_date [];
                      py "type: post";
                      py "published: false";
                      py "substack_id: " ++ _extract_post_id name;
                      py "---"]
             ++ nl ++ strip (sub_blank_lines markdown))
  /\ (forall e, fromisoformat [] = Raise e -> _format_date [] = []).
Proof.
  intros Hnone Hread Hrender Hwrite.
  assert (Hmeta : metadata_of posts_metadata name = no_meta)
    by (unfold metadata_of; now rewrite Hnone).
  rewrite convert_file_outcome. cbn [fst snd].
  unfold apply_outcome, outcome_of.
  rewrite Hread, Hmeta. cbn [no_meta published default negb].
  rewrite Hrender, Hwrite. cbn [is_converted outputs].
  split; [reflexivity|]. split.
  - rewrite lookup_insert_eq. f_equal. unfold full_content_of.
    rewrite Hmeta, create_frontmatter_lines, <- app_assoc. reflexivity.
  - intros e He. unfold _format_date.
    change (replace_char 90 (py "+00:00") []) with (@nil N).
    now rewrite He.
Qed.

Lemma missing_metadata_header_witness :
  fst (@convert_file latin1_db reference_parser echo_renderer reference_iso
         sample_fs sample_metadata (py "123.html") empty_world)
  = true.
Proof.
  apply (@missing_metadata_header latin1_db reference_parser echo_renderer
           reference_iso sample_fs sample_metadata (py "123.html")
           (py "<p>hi</p>") (py "<p>hi</p>") empty_world);
    vm_compute; reflexivity.
Defined.

Lemma drop_while_all p s :
  Forall (fun c => p c = true) s -> drop_while p s = [].
Proof.
  induction 1 as [|c s Hc _ IH]; cbn [drop_while]; [reflexivity|].
  now rewrite Hc.
Qed.

(** A title without a word character and without a hyphen gives the empty
    sanitized title, so the output file is [<post_id>_.md]: all such
    titles of one post id share one file name. *)
Theorem safe_title_of_punctuation
    `{UnicodeDB} `{HtmlParser} `{Html2Text} `{IsoParser} `{FileSystem}
    (posts_metadata : gmap pystr post_meta) (name : pystr)
    (metadata : post_meta) (t : pystr) :
  Forall (fun c => is_word c = false /\ c <> hyphen) t ->
  posts_metadata !! _extract_post_id name = Some metadata ->
  title metadata = Some t ->
  safe_title_of t = []
  /\ output_filename_of posts_metadata name
     = _extract_post_id name ++ py "_.md".
Proof.
  intros Ht Hmeta Htitle.
  assert (Hsafe : safe_title_of t = []).
  { rewrite safe_title_of_unfold.
    assert (Hspaces : Forall (fun c => is_space c = true)
                        (List.filter word_space_hyphen t)).
    { apply List.Forall_forall. intros c Hc. apply filter_In in Hc.
      destruct Hc as [Hin Hkeep]. rewrite List.Forall_forall in Ht.
      destruct (Ht c Hin) as [Hw Hh]. unfold word_space_hyphen in Hkeep.
      rewrite Hw in Hkeep. apply N.eqb_neq in Hh. rewrite Hh in Hkeep.
      now rewrite orb_false_r in Hkeep. }
    unfold strip, lstrip. now rewrite drop_while_all. }
  split; [exact Hsafe|].
  unfold output_filename_of, metadata_of. rewrite Hmeta.
  cbn [default]. unfold id. rewrite Htitle. cbn [default]. unfold id.
  now rewrite Hsafe.
Qed.

Lemma safe_title_of_punctuation_witness :
  @safe_title_of latin1_db (py "?!  ...") = [].
Proof.
  apply (@safe_title_of_punctuation latin1_db reference_parser echo_renderer
           reference_iso sample_fs
           {[ py "7" := {| title := Some (py "?!  ..."); subtitle := None;
                           date := None; type := None;
                           published := None |} ]}
           (py "7.html")
           {| title := Some (py "?!  ..."); subtitle := None; date := None;
              type := None; published := None |}
           (py "?!  ...")).
  - repeat constructor; discriminate.
  - vm_compute. reflexivity.
  - reflexivity.
Defined.

(** ** The listing and the prompt *)

Section ListingFacts.
Context `{DigitDB} `{OsPath}.

Lemma print_listing_console i directories w :
  console (snd (print_listing i directories w))
  = console w
      ++ map (fun p => listing_line (fst p) (snd p))
             (combine (seq i (length directories)) directories).
Proof.
  revert i w. induction directories as [|entry rest IH]; intros i w.
  - cbn. now rewrite app_nil_r.
  - cbn [print_listing]. unfold bind, print.
    rewrite IH. cbn [console length seq combine map fst snd].
    now rewrite <- app_assoc.
Qed.
End ListingFacts.

(** The number printed before a directory in the listing is the number
    that selects it at the prompt, as far as [int] converts numerals:
    up to 4300 digits. *)
Theorem listing_number_selects `{DigitDB} `{OsPath}
    (directories : list dir_entry) (k : nat) (entry : dir_entry)
    (rest : list input_event) (w : world) :
  (1 <= k)%nat ->
  nth_error directories (k - 1) = Some entry ->
  In (listing_line k entry) (console (snd (print_listing 1 directories w)))
  /\ fst (choose directories (Line (str_nat k) :: rest)
            (snd (print_listing 1 directories w)))
     = if Nat.leb (length (str_nat k)) int_max_str_digits
       then Ok (Some (path_join export_base (entry_name entry)))
       else Raise (exceeds_limit (length (str_nat k))).
Proof.
  intros Hk Hentry.
  assert (Hlen : (k - 1 < length directories)%nat)
    by (apply nth_error_Some; congruence).
  split.
  - rewrite print_listing_console. apply in_or_app. right.
    apply in_map_iff. exists (k, entry). split; [reflexivity|].
    apply (nth_error_In _ (k - 1)).
    assert (Hcomb : forall (l : list dir_entry) i n x,
              nth_error l n = Some x ->
              nth_error (combine (seq i (length l)) l) n = Some ((i + n)%nat, x)).
    { induction l as [|y l IH]; intros i n x; [destruct n; discriminate|].
      destruct n as [|n]; cbn [length seq combine nth_error].
      - intros E. injection E as <-. now rewrite Nat.add_0_r.
      - intros E. rewrite (IH (S i) n x E). f_equal. f_equal. lia. }
    rewrite (Hcomb _ 1%nat _ _ Hentry). f_equal. f_equal. lia.
  - pose proof (uint_digits_are_digits (Nat.to_uint k)) as Hdigits.
    fold (str_nat k) in Hdigits.
    assert (Hstrip : strip (str_nat k) = str_nat k).
    { apply strip_no_space. eapply Forall_impl; [exact Hdigits|].
      intros c. apply is_digit_not_space. }
    destruct (choose_valid_number directories k (str_nat k) rest
                (snd (print_listing 1 directories w)) Hstrip ltac:(lia))
      as (entry' & Hentry' & Hchoose).
    rewrite Hentry in Hentry'. injection Hentry' as <-.
    rewrite Hchoose, Hstrip.
    now destruct (Nat.leb (length (str_nat k)) int_max_str_digits).
Qed.

Lemma listing_number_selects_witness :
  In (py "2. 2024-04-01 (last modified: 2024-04-01 12:00)")
     (console (snd (@print_listing
                      1 (List.filter entry_is_dir sample_export) empty_world)))
  /\ fst (@choose latin1_digits posix_path
            (List.filter entry_is_dir sample_export) [Line (py "2")]
            (snd (@print_listing
                    1 (List.filter entry_is_dir sample_export) empty_world)))
     = Ok (Some (py "export/2024-04-01")).
Proof.
  apply (@listing_number_selects latin1_digits posix_path
           (List.filter entry_is_dir sample_export) 2
           {| entry_name := py "2024-04-01"; entry_is_dir := true;
              entry_modified := py "2024-04-01 12:00" |} [] empty_world).
  - lia.
  - reflexivity.
Defined.

(** For a file [<base>.html] without a metadata record, the output file
    is named after the file itself: the post id, an underscore, the
    sanitized [<base>], and [.md]. *)
Theorem fallback_filename_of_html_file
    `{UnicodeDB} `{HtmlParser} `{Html2Text} `{IsoParser} `{FileSystem}
    (posts_metadata : gmap pystr post_meta) (base : pystr) :
  base <> [] ->
  posts_metadata !! _extract_post_id (base ++ py ".html") = None ->
  output_filename_of posts_metadata (base ++ py ".html")
  = _extract_post_id (base ++ py ".html") ++ py "_" ++ safe_title_of base
      ++ py ".md".
Proof.
  intros Hbase Hnone. unfold output_filename_of, metadata_of.
  rewrite Hnone. cbn [default no_meta title]. unfold id.
  now rewrite stem_of_html_file.
Qed.

Lemma fallback_filename_of_html_file_witness :
  @output_filename_of latin1_db sample_metadata (py "123.my post" ++ py ".html")
  = py "123_123my-post.md".
Proof.
  rewrite (@fallback_filename_of_html_file latin1_db reference_parser
             echo_renderer reference_iso sample_fs sample_metadata
             (py "123.my post"));
    [vm_compute; reflexivity | discriminate | vm_compute; reflexivity].
Defined.

(** ** The theorems above, at the sample export *)

Lemma clean_html_whitespace_witness :
  Forall (fun c => is_space c = true -> c = space \/ c = 10)
         (@_clean_html_content reference_parser double_break_html).
Proof. apply (@clean_html_whitespace reference_parser). Defined.


Lemma convert_all_lines_witness :
  outputs (@convert_all latin1_db reference_parser echo_renderer
             reference_iso sample_fs sample_metadata (Some []) empty_world)
  = ∅.
Proof.
  destruct (@convert_all_lines latin1_db reference_parser echo_renderer
              reference_iso sample_fs sample_metadata (Some []) empty_world)
    as [_ Hnone].
  apply Hnone. now right.
Defined.
